(** * Resume registry of [backend/server.py]: sheet, cache and the four routes

    The Flask server keeps resumes in two places: a Google spreadsheet
    (the durable table, reached through gspread) and the module-level
    dictionary [resumes] (the cache).  This development embeds the
    functions of [server.py] over an explicit world holding both, and
    proves what the routes do to them.

    Conventions of the embedding.
    - A Python [str] is a [string]; a character stands for a code point
      below 256.
    - A cell of the spreadsheet is a string.  [get_all_records] hands
      the cells of the rows below the first to gspread's [numericise]:
      a cell that [int] or [float] accepts comes back as a number, any
      other cell as the string it is.  A value is therefore a text or a
      number; a number is kept as the literal it was read from, and its
      equality and truth value are those of the number the literal
      denotes ([int] exactly, [float] rounded to the nearest double).
    - A Python [dict] is an association list kept in insertion order,
      since [list(resumes.values())] exposes that order; its keys are
      values, compared as Python compares them.
    - Every call on [sheet] is a remote call and may raise.  The world
      carries a schedule of booleans, one consumed per remote call;
      [true] makes the call raise and leaves the table as it was.  An
      exhausted schedule means the remaining calls succeed.
    - [print] writes to the server console only and is not modelled. *)

From Stdlib Require Import List String Ascii Bool Arith ZArith Lia.
Import ListNotations.
Local Open Scope string_scope.
Local Open Scope list_scope.

(** ** Python strings *)

Module PyStr.

(** [str.isspace] on one code point below 256. *)
Definition is_space (c : ascii) : bool :=
  let n := nat_of_ascii c in
  (Nat.leb 9 n && Nat.leb n 13) || (Nat.leb 28 n && Nat.leb n 32)
  || Nat.eqb n 133 || Nat.eqb n 160.

Fixpoint lstrip (s : string) : string :=
  match s with
  | EmptyString => EmptyString
  | String c s' => if is_space c then lstrip s' else s
  end.

Fixpoint rstrip (s : string) : string :=
  match s with
  | EmptyString => EmptyString
  | String c s' =>
      match rstrip s' with
      | EmptyString => if is_space c then EmptyString else String c EmptyString
      | r => String c r
      end
  end.

(** [s.strip()] *)
Definition strip (s : string) : string := rstrip (lstrip s).

Fixpoint all_space (s : string) : bool :=
  match s with
  | EmptyString => true
  | String c s' => is_space c && all_space s'
  end.

(** Truth value of a string: [if s:] *)
Definition truthy (s : string) : bool :=
  match s with EmptyString => false | _ => true end.

(** [s.startswith(p)] *)
Fixpoint startswith (p s : string) : bool :=
  match p, s with
  | EmptyString, _ => true
  | String _ _, EmptyString => false
  | String a p', String b s' => Ascii.eqb a b && startswith p' s'
  end.

(** [sep.join(l)] *)
Fixpoint join (sep : string) (l : list string) : string :=
  match l with
  | [] => EmptyString
  | [x] => x
  | x :: rest => x ++ sep ++ join sep rest
  end.

(** [s.split(sep)] for a non-empty [sep]: cut at the leftmost occurrence
    and go on after it.  [skip] counts the characters of a separator
    already matched that are still to be passed over. *)
Fixpoint split_from (sep s : string) (skip : nat) : list string :=
  match s with
  | EmptyString => [EmptyString]
  | String c s' =>
      match skip with
      | S k => split_from sep s' k
      | O =>
          if startswith sep s
          then EmptyString :: split_from sep s' (String.length sep - 1)
          else match split_from sep s' 0 with
               | p :: ps => String c p :: ps
               | [] => [String c EmptyString]
               end
      end
  end.

Definition split (sep s : string) : list string := split_from sep s 0.

(** [sep in s] *)
Fixpoint contains (sep s : string) : bool :=
  match s with
  | EmptyString => startswith sep EmptyString
  | String _ s' => startswith sep s || contains sep s'
  end.

(** [s.lower()] on ASCII letters. *)
Definition lower_char (c : ascii) : ascii :=
  let n := nat_of_ascii c in
  if Nat.leb 65 n && Nat.leb n 90 then ascii_of_nat (n + 32) else c.

Fixpoint lower (s : string) : string :=
  match s with
  | EmptyString => EmptyString
  | String c s' => String (lower_char c) (lower s')
  end.

(** [s.rsplit(".", 1)[1]] when [s] has a dot: what follows the last dot.
    [None] when [s] has no dot. *)
Fixpoint after_last_dot (s : string) : option string :=
  match s with
  | EmptyString => None
  | String c s' =>
      match after_last_dot s' with
      | Some t => Some t
      | None => if Ascii.eqb c "."%char then Some s' else None
      end
  end.

End PyStr.

(** ** Python numbers read from text *)

Module PyNum.

Definition is_digit (c : ascii) : bool :=
  let n := nat_of_ascii c in Nat.leb 48 n && Nat.leb n 57.

Definition digit_value (c : ascii) : Z := Z.of_nat (nat_of_ascii c - 48).

Fixpoint all_digits (s : string) : bool :=
  match s with
  | EmptyString => true
  | String c s' => is_digit c && all_digits s'
  end.

Fixpoint digits_value (acc : Z) (s : string) : Z :=
  match s with
  | EmptyString => acc
  | String c s' => digits_value (10 * acc + digit_value c)%Z s'
  end.

(** An optional sign in front: whether it is a minus, and the rest. *)
Definition take_sign (s : string) : bool * string :=
  match s with
  | String "-" s' => (true, s')
  | String "+" s' => (false, s')
  | _ => (false, s)
  end.

(** [int(s)]: white space around, an optional sign, decimal digits.
    [None] stands for [ValueError]. *)
Definition int_of (s : string) : option Z :=
  let (negative, body) := take_sign (PyStr.strip s) in
  if PyStr.truthy body && all_digits body
  then Some (if negative then (- digits_value 0 body)%Z
             else digits_value 0 body)
  else None.

(** A double: not a number, an infinity, or plus or minus [m * 2 ^ e]. *)
Inductive float : Type :=
| FNaN
| FInf (negative : bool)
| FFin (negative : bool) (m e : Z).

(** The leading digits of a string, and what follows them. *)
Fixpoint span_digits (s : string) : string * string :=
  match s with
  | EmptyString => (EmptyString, EmptyString)
  | String c s' =>
      if is_digit c
      then let (d, r) := span_digits s' in (String c d, r)
      else (EmptyString, s)
  end.

(** A decimal literal without sign: digits before the point, digits
    after it, and the exponent. *)
Definition decimal_of (body : string) : option (string * string * Z) :=
  let (ip, r1) := span_digits body in
  let (fp, r2) :=
    match r1 with
    | String "." r => span_digits r
    | _ => (EmptyString, r1)
    end in
  if negb (PyStr.truthy ip) && negb (PyStr.truthy fp) then None
  else
    match r2 with
    | EmptyString => Some (ip, fp, 0%Z)
    | String c r3 =>
        if Ascii.eqb c "e" || Ascii.eqb c "E"
        then
          let (negative, ex) := take_sign r3 in
          if PyStr.truthy ex && all_digits ex
          then Some (ip, fp, if negative then (- digits_value 0 ex)%Z
                             else digits_value 0 ex)
          else None
        else None
    end.

(** The double nearest to [m * 10 ^ e10], ties to even. *)
Definition round_double (negative : bool) (m e10 : Z) : float :=
  if (m =? 0)%Z then FFin negative 0 0
  else
    let num := if (0 <=? e10)%Z then (m * 10 ^ e10)%Z else m in
    let den := if (0 <=? e10)%Z then 1%Z else (10 ^ (- e10))%Z in
    let quotient (e : Z) : Z :=
      if (0 <=? e)%Z then (num / (den * 2 ^ e))%Z
      else ((num * 2 ^ (- e)) / den)%Z in
    let e0 := (Z.log2 num - Z.log2 den - 52)%Z in
    let e1 := if (2 ^ 53 <=? quotient e0)%Z then (e0 + 1)%Z
              else if (quotient e0 <? 2 ^ 52)%Z then (e0 - 1)%Z
              else e0 in
    let e := Z.max e1 (-1074) in
    let top := if (0 <=? e)%Z then num else (num * 2 ^ (- e))%Z in
    let bottom := if (0 <=? e)%Z then (den * 2 ^ e)%Z else den in
    let q := (top / bottom)%Z in
    let r := (top mod bottom)%Z in
    let q' := if (bottom <? 2 * r)%Z then (q + 1)%Z
              else if (bottom =? 2 * r)%Z && Z.odd q then (q + 1)%Z
              else q in
    if (q' =? 0)%Z then FFin negative 0 0
    else if (1024 <=? Z.log2 q' + e)%Z then FInf negative
    else FFin negative q' e.

(** [float(s)]: white space around, an optional sign, then [inf],
    [infinity] or [nan] in any case, or a decimal literal.  [None]
    stands for [ValueError]. *)
Definition float_of (s : string) : option float :=
  let (negative, body) := take_sign (PyStr.strip s) in
  let word := PyStr.lower body in
  if String.eqb word "inf" || String.eqb word "infinity"
  then Some (FInf negative)
  else if String.eqb word "nan" then Some FNaN
  else
    match decimal_of body with
    | Some (ip, fp, ex) =>
        Some (round_double negative (digits_value 0 (ip ++ fp))
                           (ex - Z.of_nat (String.length fp)))
    | None => None
    end.

Inductive number : Type :=
| NInt (z : Z)
| NFloat (f : float).

(** What [numericise] tries: [int] first, then [float]. *)
Definition number_of (s : string) : option number :=
  match int_of s with
  | Some z => Some (NInt z)
  | None =>
      match float_of s with
      | Some f => Some (NFloat f)
      | None => None
      end
  end.

(** [bool(n)] *)
Definition truthy (n : number) : bool :=
  match n with
  | NInt z => negb (z =? 0)%Z
  | NFloat FNaN => true
  | NFloat (FInf _) => true
  | NFloat (FFin _ m _) => negb (m =? 0)%Z
  end.

(** A positive number as an odd number times a power of two. *)
Fixpoint odd_part (p : positive) : positive * Z :=
  match p with
  | xO p' => let (q, k) := odd_part p' in (q, (k + 1)%Z)
  | _ => (p, 0%Z)
  end.

(** A finite number as [m * 2 ^ e] with [m] odd, or as zero. *)
Definition dyadic (m e : Z) : Z * Z :=
  match m with
  | Z0 => (0%Z, 0%Z)
  | Zpos p => let (q, k) := odd_part p in (Zpos q, (e + k)%Z)
  | Zneg p => let (q, k) := odd_part p in (Zneg q, (e + k)%Z)
  end.

Definition finite (n : number) : option (Z * Z) :=
  match n with
  | NInt z => Some (dyadic z 0)
  | NFloat (FFin negative m e) =>
      Some (dyadic (if negative then (- m)%Z else m) e)
  | NFloat _ => None
  end.

(** [a == b] on numbers: equal when they denote the same number; an
    integer and a double are compared exactly; [nan] equals nothing. *)
Definition eqb (a b : number) : bool :=
  match finite a, finite b with
  | Some (m, e), Some (m', e') => (m =? m')%Z && (e =? e')%Z
  | None, None =>
      match a, b with
      | NFloat (FInf s), NFloat (FInf s') => Bool.eqb s s'
      | _, _ => false
      end
  | _, _ => false
  end.

End PyNum.

(** ** Values: what a dictionary holds and is keyed by *)

Inductive value : Type :=
| VText (s : string)
| VNum (literal : string).

Coercion VText : string >-> value.

(** gspread's [numericise] with its defaults: a cell with an underscore
    stays a string; otherwise [int] is tried, then [float]; a cell that
    neither accepts stays the string it is (the empty cell included). *)
Definition numericise (cell : string) : value :=
  if PyStr.contains "_" cell then VText cell
  else
    match PyNum.number_of cell with
    | Some _ => VNum cell
    | None => VText cell
    end.

(** The cell was left a string by [numericise]. *)
Definition textual (cell : string) : bool :=
  match numericise cell with
  | VText _ => true
  | VNum _ => false
  end.

(** [a == b] on values: a string never equals a number. *)
Definition py_eq (a b : value) : bool :=
  match a, b with
  | VText x, VText y => String.eqb x y
  | VNum x, VNum y =>
      match PyNum.number_of x, PyNum.number_of y with
      | Some n, Some m => PyNum.eqb n m
      | _, _ => false
      end
  | _, _ => false
  end.

(** Truth value: [if v:] *)
Definition py_truthy (v : value) : bool :=
  match v with
  | VText s => PyStr.truthy s
  | VNum literal =>
      match PyNum.number_of literal with
      | Some n => PyNum.truthy n
      | None => false
      end
  end.

(** The text a value stands for in a cell. *)
Definition cell_text (v : value) : string :=
  match v with
  | VText s => s
  | VNum literal => literal
  end.

(** ** Python dictionaries, in insertion order *)

Module PyDict.

Definition dict (V : Type) := list (value * V).

Fixpoint get {V} (k : value) (d : dict V) : option V :=
  match d with
  | [] => None
  | (k', v) :: d' => if py_eq k k' then Some v else get k d'
  end.

(** [d.get(k, default)] *)
Definition get_default {V} (k : value) (default : V) (d : dict V) : V :=
  match get k d with Some v => v | None => default end.

(** [k in d] *)
Definition mem {V} (k : value) (d : dict V) : bool :=
  match get k d with Some _ => true | None => false end.

(** [d[k] = v]: an existing key keeps its place, a new one goes last. *)
Fixpoint set {V} (k : value) (v : V) (d : dict V) : dict V :=
  match d with
  | [] => [(k, v)]
  | (k', v') :: d' =>
      if py_eq k k' then (k', v) :: d' else (k', v') :: set k v d'
  end.

(** [del d[k]] for a key that is present. *)
Fixpoint del {V} (k : value) (d : dict V) : dict V :=
  match d with
  | [] => []
  | (k', v') :: d' =>
      if py_eq k k' then d' else (k', v') :: del k d'
  end.

(** [list(d.values())] *)
Definition values {V} (d : dict V) : list V := map snd d.

Definition keys {V} (d : dict V) : list value := map fst d.

(** [dict(zip(ks, vs))], the keys being strings *)
Definition of_zip {V} (ks : list string) (vs : list V) : dict V :=
  fold_left (fun d kv => set (VText (fst kv)) (snd kv) d) (combine ks vs) [].

End PyDict.

(** ** The world: spreadsheet, cache, upload folder, fault schedule *)

Import PyDict.

Definition row := list string.

(** One resume as the server holds it: the dictionary with the keys
    [id], [filename], [name], [email], [phone], [linkedin], [github] and
    [skills].  A resume built by an upload holds strings; one read from
    the table holds what [numericise] made of the cells. *)
Record resume := mkResume {
  r_id : value;
  r_filename : value;
  r_name : value;
  r_email : value;
  r_phone : value;
  r_linkedin : value;
  r_github : value;
  r_skills : list string
}.

(** What [extract_details] hands back: the six extracted fields. *)
Record details := mkDetails {
  d_name : string;
  d_email : string;
  d_phone : string;
  d_linkedin : string;
  d_github : string;
  d_skills : list string
}.

Record world := mkWorld {
  sheet : list row;          (* rows of [sheet], top to bottom *)
  resumes : dict resume;     (* the module-level cache *)
  uploads : dict string;     (* files written under the upload folder *)
  faults : list bool         (* one entry per remote call still to come *)
}.

(** ** Computations that may raise *)

Inductive outcome (A : Type) : Type :=
| Return (a : A)
| Raise (e : string).
Arguments Return {A} a.
Arguments Raise {A} e.

Definition M (A : Type) : Type := world -> outcome A * world.

Definition ret {A} (a : A) : M A := fun w => (Return a, w).

Definition bind {A B} (m : M A) (k : A -> M B) : M B :=
  fun w =>
    match m w with
    | (Return a, w') => k a w'
    | (Raise e, w') => (Raise e, w')
    end.

Definition lift {A} (o : outcome A) : M A := fun w => (o, w).

(** [try: m except Exception as e: handler(e)] *)
Definition try_except {A} (m : M A) (handler : string -> M A) : M A :=
  fun w =>
    match m w with
    | (Return a, w') => (Return a, w')
    | (Raise e, w') => handler e w'
    end.

Declare Scope py_scope.
Delimit Scope py_scope with py.
Notation "x <- m ;; k" := (bind m (fun x => k))
  (at level 61, m at next level, right associativity) : py_scope.
Notation "m ;; k" := (bind m (fun _ => k))
  (at level 61, right associativity) : py_scope.
Local Open Scope py_scope.

(** [for x in l: body(x)] *)
Fixpoint for_each {A} (l : list A) (body : A -> M unit) : M unit :=
  match l with
  | [] => ret tt
  | x :: rest => body x ;; for_each rest body
  end.

(** ** gspread's worksheet calls *)

Module Sheet.

(** Trailing empty cells are not returned by the service. *)
Fixpoint trim (r : row) : row :=
  match r with
  | [] => []
  | c :: r' =>
      match trim r' with
      | [] => if PyStr.truthy c then [c] else []
      | t => c :: t
      end
  end.

Definition width (rows : list row) : nat :=
  fold_right (fun r n => Nat.max (List.length r) n) 0 rows.

Definition pad (n : nat) (r : row) : row :=
  r ++ repeat EmptyString (n - List.length r).

(** Rows come back as a rectangle, short rows filled with empty cells. *)
Definition fill_gaps (rows : list row) : list row :=
  map (pad (width rows)) rows.

Fixpoint remove_nth {A} (n : nat) (l : list A) : list A :=
  match l, n with
  | [], _ => []
  | _ :: l', O => l'
  | x :: l', S n' => x :: remove_nth n' l'
  end.

(** A remote call: consumes one entry of the schedule; on [true] it
    raises and the table is untouched. *)
Definition remote {A} (op : list row -> A * list row) : M A :=
  fun w =>
    let go fs :=
      let (a, s) := op (sheet w) in
      (Return a, mkWorld s (resumes w) (uploads w) fs) in
    match faults w with
    | true :: fs =>
        (Raise "APIError", mkWorld (sheet w) (resumes w) (uploads w) fs)
    | false :: fs => go fs
    | [] => go []
    end.

(** [sheet.row_values(n)], rows counted from 1 *)
Definition row_values (n : nat) : M row :=
  remote (fun s => (trim (nth (n - 1) s []), s)).

(** [sheet.append_row(values)]: the row goes after the last row. *)
Definition append_row (values : row) : M unit :=
  remote (fun s => (tt, s ++ [values])).

(** [sheet.get_all_values()] *)
Definition get_all_values : M (list row) :=
  remote (fun s => (fill_gaps s, s)).

(** No string occurs twice. *)
Fixpoint unique (l : list string) : bool :=
  match l with
  | [] => true
  | x :: l' => negb (existsb (String.eqb x) l') && unique l'
  end.

(** The first row, as [get_all_values] returns it, repeats no key. *)
Definition header_ok (s : list row) : bool :=
  match fill_gaps s with
  | [] => true
  | keys :: _ => unique keys
  end.

(** The dictionaries of [get_all_records]: the first row gives the keys,
    each later row gives one dictionary of its numericised cells. *)
Definition records_of (s : list row) : list (dict value) :=
  match fill_gaps s with
  | [] => []
  | keys :: values => map (fun r => of_zip keys (map numericise r)) values
  end.

(** [sheet.get_all_records()]: reads all values, then raises when the
    first row repeats a key. *)
Definition get_all_records : M (list (dict value)) :=
  data <- remote (fun s => (s, s)) ;;
  if header_ok data then ret (records_of data)
  else lift (Raise "GSpreadException").

(** [sheet.delete_rows(n)], rows counted from 1 *)
Definition delete_rows (n : nat) : M unit :=
  remote (fun s => (tt, remove_nth (n - 1) s)).

End Sheet.

(** ** The cache [resumes] and the upload folder *)

Definition cache_set (k : value) (v : resume) : M unit :=
  fun w => (Return tt,
            mkWorld (sheet w) (set k v (resumes w)) (uploads w) (faults w)).

Definition cache_clear : M unit :=
  fun w => (Return tt, mkWorld (sheet w) [] (uploads w) (faults w)).

Definition cache_del (k : value) : M unit :=
  fun w => (Return tt,
            mkWorld (sheet w) (del k (resumes w)) (uploads w) (faults w)).

Definition cache_read : M (dict resume) :=
  fun w => (Return (resumes w), w).

(** [file.save(path)] *)
Definition save (path content : string) : M unit :=
  fun w => (Return tt,
            mkWorld (sheet w) (resumes w) (set path content (uploads w))
                    (faults w)).

(** ** server.py *)

Definition UPLOAD_FOLDER : string := "uploads".
Definition ALLOWED_EXTENSIONS : list string := ["pdf"; "docx"].
Definition EXPECTED_HEADERS : row :=
  ["ID"; "Filename"; "Name"; "Email"; "Phone"; "LinkedIn"; "GitHub"; "Skills"].

(** The body of a JSON answer and its status code. *)
Inductive body : Type :=
| JError (msg : string)
| JMessage (msg : string)
| JResume (r : resume)
| JResumes (l : list resume).

Definition response : Type := body * nat.

Definition ensure_headers : M unit :=
  existing_headers <- Sheet.row_values 1 ;;
  match existing_headers with
  | [] => Sheet.append_row EXPECTED_HEADERS
  | _ => ret tt
  end.

Definition allowed_file (filename : string) : bool :=
  match PyStr.after_last_dot filename with
  | None => false
  | Some ext => existsb (String.eqb (PyStr.lower ext)) ALLOWED_EXTENSIONS
  end.

(** The row built in [append_to_google_sheet]. *)
Definition sheet_row (data : resume) : row :=
  [ cell_text (r_id data); cell_text (r_filename data);
    cell_text (r_name data); cell_text (r_email data);
    cell_text (r_phone data); cell_text (r_linkedin data);
    cell_text (r_github data); PyStr.join ", " (r_skills data) ].

Definition append_to_google_sheet (data : resume) : M unit :=
  try_except
    (ensure_headers ;;
     Sheet.append_row (sheet_row data))
    (fun _ => ret tt).

(** The dictionary built for one record of [get_all_records]; [split] is
    a method of strings, so a Skills cell that came back as a number
    raises. *)
Definition resume_of_record (resume_id : value) (record : dict value)
  : outcome resume :=
  match get_default "Skills" (VText "") record with
  | VText skills =>
      Return (mkResume resume_id
                       (get_default "Filename" (VText "") record)
                       (get_default "Name" (VText "") record)
                       (get_default "Email" (VText "") record)
                       (get_default "Phone" (VText "") record)
                       (get_default "LinkedIn" (VText "") record)
                       (get_default "GitHub" (VText "") record)
                       (PyStr.split ", " skills))
  | VNum _ => Raise "AttributeError"
  end.

Definition fetch_resumes_from_sheets : M unit :=
  try_except
    (ensure_headers ;;
     all_records <- Sheet.get_all_records ;;
     cache_clear ;;
     for_each all_records (fun record =>
       let resume_id := get_default "ID" (VText "") record in
       if py_truthy resume_id
       then entry <- lift (resume_of_record resume_id record) ;;
            cache_set resume_id entry
       else ret tt))
    (fun _ => ret tt).

(** The duplicate scan of [upload_resume]:
    [record.get("Phone") == parsed_details["phone"]] for some record. *)
Fixpoint phone_taken (existing_resumes : list (dict value)) (phone : string)
  : bool :=
  match existing_resumes with
  | [] => false
  | record :: rest =>
      match get "Phone" record with
      | Some p => if py_eq p phone then true else phone_taken rest phone
      | None => phone_taken rest phone
      end
  end.

(** An uploaded file: its name and its bytes. *)
Record upload := mkUpload { up_filename : string; up_content : string }.

Section Routes.

(** Collaborators outside [server.py]: werkzeug's [secure_filename] and
    the two functions of [resume_parser.ai_model], which may raise. *)
Variable secure_filename : string -> string.
Variable extract_text_from_pdf : string -> outcome string.
Variable extract_details : string -> outcome details.

(** [POST /api/resumes/].  [hex] is [uuid.uuid4().hex]; [files] is
    [request.files.get("file")]. *)
Definition upload_resume (hex : string) (files : option upload) : M response :=
  match files with
  | None => ret (JError "No file part", 400)
  | Some file =>
      if String.eqb (up_filename file) ""
      then ret (JError "No selected file", 400)
      else if negb (allowed_file (up_filename file))
      then ret (JError "Invalid file type. Only PDF and DOCX are allowed.", 400)
      else
        try_except
          (let filename := secure_filename (up_filename file) in
           let unique_filename := (hex ++ "_" ++ filename)%string in
           let file_path := (UPLOAD_FOLDER ++ "/" ++ unique_filename)%string in
           save file_path (up_content file) ;;
           extracted_text <- lift (extract_text_from_pdf (up_content file)) ;;
           if negb (PyStr.truthy (PyStr.strip extracted_text))
           then ret (JError "Could not extract text from file", 500)
           else
             parsed_details <- lift (extract_details extracted_text) ;;
             existing_resumes <- Sheet.get_all_records ;;
             if phone_taken existing_resumes (d_phone parsed_details)
             then ret (JError "Resume already uploaded!!.", 400)
             else
               let parsed :=
                 mkResume unique_filename filename
                          (d_name parsed_details) (d_email parsed_details)
                          (d_phone parsed_details) (d_linkedin parsed_details)
                          (d_github parsed_details) (d_skills parsed_details) in
               cache_set unique_filename parsed ;;
               append_to_google_sheet parsed ;;
               ret (JResume parsed, 200))
          (fun _ => ret (JError "Internal Server Error", 500))
  end.

End Routes.

(** [GET /api/resumes] *)
Definition get_all_resumes : M response :=
  try_except
    (fetch_resumes_from_sheets ;;
     cache <- cache_read ;;
     ret (JResumes (values cache), 200))
    (fun _ => ret (JError "Internal Server Error", 500)).

(** [GET /api/resumes/<resume_id>] *)
Definition get_resume (resume_id : string) : M response :=
  try_except
    (fetch_resumes_from_sheets ;;
     cache <- cache_read ;;
     match get resume_id cache with
     | None => ret (JError "Resume not found", 404)
     | Some r => ret (JResume r, 200)
     end)
    (fun _ => ret (JError "Internal Server Error", 500)).

(** [row and row[0] == resume_id] *)
Definition row_has_id (resume_id : string) (r : row) : bool :=
  match r with
  | [] => false
  | c :: _ => String.eqb c resume_id
  end.

(** The loop of [delete_resume]: delete the first matching row, then
    [break]. *)
Fixpoint delete_first (resume_id : string) (sheet_data : list row) (idx : nat)
  : M unit :=
  match sheet_data with
  | [] => ret tt
  | r :: rest =>
      if row_has_id resume_id r
      then Sheet.delete_rows (idx + 1)
      else delete_first resume_id rest (S idx)
  end.

(** [DELETE /api/delete_resume/<resume_id>] *)
Definition delete_resume (resume_id : string) : M response :=
  try_except
    (fetch_resumes_from_sheets ;;
     cache <- cache_read ;;
     if negb (mem resume_id cache)
     then ret (JError "Resume not found", 404)
     else
       cache_del resume_id ;;
       sheet_data <- Sheet.get_all_values ;;
       delete_first resume_id sheet_data 0 ;;
       ret (JMessage "Resume deleted successfully", 200))
    (fun _ => ret (JError "Internal Server Error", 500)).

(** ** Running a computation *)

Definition result {A} (m : M A) (w : world) : outcome A := fst (m w).
Definition exec {A} (m : M A) (w : world) : world := snd (m w).

(** [n] separate calls of [m]; a call that raises does not stop the
    caller from making the next one. *)
Fixpoint call_times (n : nat) (m : M unit) : M unit :=
  match n with
  | O => ret tt
  | S n' => try_except m (fun _ => ret tt) ;; call_times n' m
  end.

(** ** The table as the routes read it *)

Definition cell (i : nat) (r : row) : string := nth i r EmptyString.

(** A row that [get_all_records] and the loop of the refresh take
    without exception below the header: at most nine cells, so that the
    header filled up to the width of the table repeats no key, and an ID
    cell and a Skills cell that [numericise] leaves as strings. *)
Definition plain (r : row) : Prop :=
  List.length r <= 9 /\ textual (cell 0 r) = true /\ textual (cell 7 r) = true.

(** The resume the refresh stores for a plain row. *)
Definition resume_of_row (r : row) : resume :=
  mkResume (cell 0 r) (numericise (cell 1 r)) (numericise (cell 2 r))
           (numericise (cell 3 r)) (numericise (cell 4 r))
           (numericise (cell 5 r)) (numericise (cell 6 r))
           (PyStr.split ", " (cell 7 r)).

(** The table after a call of [ensure_headers] that meets no fault. *)
Definition with_header (s : list row) : list row :=
  match Sheet.trim (nth 0 s []) with
  | [] => s ++ [EXPECTED_HEADERS]
  | _ => s
  end.

(** One turn of the loop of [fetch_resumes_from_sheets]: the cache after
    it, or the exception it raises. *)
Definition keep_record (c : dict resume) (record : dict value)
  : outcome (dict resume) :=
  let resume_id := get_default "ID" (VText "") record in
  if py_truthy resume_id
  then match resume_of_record resume_id record with
       | Return entry => Return (set resume_id entry c)
       | Raise e => Raise e
       end
  else Return c.

(** The loop itself: how it ends, and the cache it leaves.  It stops at
    the first record that raises, keeping what it stored before. *)
Fixpoint load (records : list (dict value)) (c : dict resume)
  : outcome unit * dict resume :=
  match records with
  | [] => (Return tt, c)
  | record :: rest =>
      match keep_record c record with
      | Return c' => load rest c'
      | Raise e => (Raise e, c)
      end
  end.

(** One turn of the loop on a plain row below the header. *)
Definition keep_row (c : dict resume) (r : row) : dict resume :=
  if PyStr.truthy (cell 0 r) then set (cell 0 r) (resume_of_row r) c else c.

Definition is_header (r : row) : bool :=
  if list_eq_dec string_dec r EXPECTED_HEADERS then true else false.

Definition header_count (s : list row) : nat :=
  List.length (filter is_header s).

(** The first row of the table holds something. *)
Definition first_row_filled (s : list row) : Prop :=
  Sheet.trim (nth 0 s []) <> [].

(** Non-empty values of a column, top to bottom. *)
Definition column (i : nat) (rows : list row) : list string :=
  filter PyStr.truthy (map (cell i) rows).

Definition with_uploads (u : dict string) (w : world) : world :=
  mkWorld (sheet w) (resumes w) u (faults w).

(** Where the loop of [delete_resume] stops: the index of the first row
    of [sheet_data] that has the id. *)
Fixpoint find_row (resume_id : string) (sheet_data : list row) : option nat :=
  match sheet_data with
  | [] => None
  | r :: rest =>
      if row_has_id resume_id r then Some 0
      else option_map S (find_row resume_id rest)
  end.

(** The rows without the first one whose first cell is the id. *)
Fixpoint drop_row (resume_id : string) (rows : list row) : list row :=
  match rows with
  | [] => []
  | r :: rest =>
      if String.eqb (cell 0 r) resume_id then rest
      else r :: drop_row resume_id rest
  end.

(** The resumes a listing returns. *)
Definition listed (w : world) : list resume :=
  match result get_all_resumes w with
  | Return (JResumes l, _) => l
  | _ => []
  end.

(** A computation that neither reads nor writes the upload folder. *)
Definition frames {A} (m : M A) : Prop :=
  forall u w, m (with_uploads u w) = (result m w, with_uploads u (exec m w)).

(** Every entry of the cache sits under the id of its resume, or under
    a key equal to it (an assignment under a key that is present keeps
    the key as it was first written), as both assignments to [resumes]
    in [server.py] leave it. *)
Definition well_keyed (c : dict resume) : Prop :=
  Forall (fun kv => r_id (snd kv) = fst kv \/
                    py_eq (r_id (snd kv)) (fst kv) = true) c.

(** The items of a list, in order, with a comma and a space between
    neighbours and nothing before the first or after the last. *)
Definition comma_separated (items : list string) : string :=
  match items with
  | [] => EmptyString
  | x :: rest =>
      (x ++ fold_right (fun y acc => ", " ++ y ++ acc) EmptyString rest)%string
  end.

(** ** Stand-ins for the collaborators, used in the examples *)

Module Sample.

Definition secure_filename (name : string) : string := name.
Definition extract_text_from_pdf (content : string) : outcome string :=
  Return content.
Definition extract_details (d : details) (text : string) : outcome details :=
  Return d.

Definition header_only : list row := [EXPECTED_HEADERS].
Definition empty_world : world := mkWorld [] [] [] [].

Definition ann : details :=
  mkDetails "Ann" "ann@example.org" "555-0100" "" "" ["Rocq"; "Python"].
Definition cv : upload := mkUpload "cv.pdf" "Ann 555-0100".
Definition cv2 : upload := mkUpload "cv-new.docx" "Ann, again 555-0100".

(** The row [upload_resume] writes for [cv] under the token [0f]. *)
Definition ann_row : row :=
  ["0f_cv.pdf"; "cv.pdf"; "Ann"; "ann@example.org"; "555-0100"; ""; "";
   "Rocq, Python"].

Definition bob_row : row :=
  ["1a_bob.docx"; "bob.docx"; "Bob"; "bob@example.org"; "555-0199"; "";
   "github.com/bob"; "Go"].

(** [POST] with the stand-ins, details fixed to [d]. *)
Definition post (d : details) (hex : string) (file : upload) : M response :=
  upload_resume secure_filename extract_text_from_pdf (extract_details d)
                hex (Some file).

End Sample.

(** ** What an accepted upload stores *)

Section Created.

Variable secure_filename : string -> string.

(** [unique_filename] of [upload_resume] *)
Definition unique_name (hex : string) (file : upload) : string :=
  (hex ++ "_" ++ secure_filename (up_filename file))%string.

(** [file_path] of [upload_resume] *)
Definition upload_path (hex : string) (file : upload) : string :=
  (UPLOAD_FOLDER ++ "/" ++ unique_name hex file)%string.

(** [parsed_details] once [id] and [filename] are set *)
Definition created (hex : string) (file : upload) (d : details) : resume :=
  mkResume (unique_name hex file) (secure_filename (up_filename file))
           (d_name d) (d_email d) (d_phone d) (d_linkedin d) (d_github d)
           (d_skills d).

End Created.


(** ["." in s] *)
Fixpoint has_dot (s : string) : bool :=
  match s with
  | EmptyString => false
  | String c s' => Ascii.eqb c "."%char || has_dot s'
  end.

(** A row that carries an id: its first cell is not empty. *)
Definition has_id (r : row) : bool := PyStr.truthy (cell 0 r).

(** * Properties *)

(** ** Strings: [strip], [join] and [split] *)

Lemma lstrip_all_space (s : string) :
  PyStr.all_space s = true -> PyStr.lstrip s = EmptyString.
Proof.
  induction s as [|c s IH]; simpl; [reflexivity|].
  intros H. apply andb_prop in H. destruct H as [Hc Hs].
  rewrite Hc. exact (IH Hs).
Qed.

Lemma strip_all_space (s : string) :
  PyStr.all_space s = true -> PyStr.strip s = EmptyString.
Proof.
  intros H. unfold PyStr.strip. rewrite (lstrip_all_space s H). reflexivity.
Qed.

Lemma rstrip_empty_all_space (s : string) :
  PyStr.rstrip s = EmptyString -> PyStr.all_space s = true.
Proof.
  induction s as [|c s IH]; simpl; [reflexivity|].
  destruct (PyStr.rstrip s) eqn:E.
  - destruct (PyStr.is_space c); [intros _; simpl; now apply IH | discriminate].
  - discriminate.
Qed.

Lemma strip_empty_all_space (s : string) :
  PyStr.strip s = EmptyString -> PyStr.all_space s = true.
Proof.
  unfold PyStr.strip. induction s as [|c s IH]; simpl; [reflexivity|].
  destruct (PyStr.is_space c) eqn:Ec; simpl.
  - exact IH.
  - destruct (PyStr.rstrip s); [rewrite Ec|]; discriminate.
Qed.





(** ** Values *)

Lemma numericise_empty : numericise EmptyString = VText EmptyString.
Proof. reflexivity. Qed.

Lemma numericise_textual (s : string) :
  textual s = true -> numericise s = VText s.
Proof.
  unfold textual, numericise.
  destruct (PyStr.contains "_" s); [reflexivity|].
  destruct (PyNum.number_of s); [discriminate | reflexivity].
Qed.

Lemma numericise_cases (s : string) :
  numericise s = VText s \/ numericise s = VNum s.
Proof.
  unfold numericise. destruct (PyStr.contains "_" s); [now left|].
  destruct (PyNum.number_of s); [now right | now left].
Qed.

(** A numericised cell equals a string only when the cell is that
    string and was left a string. *)
Lemma py_eq_numericise (c s : string) :
  py_eq (numericise c) (VText s) = String.eqb c s && textual c.
Proof.
  unfold textual. destruct (numericise_cases c) as [H|H]; rewrite H; simpl.
  - now rewrite andb_true_r.
  - now rewrite andb_false_r.
Qed.

Lemma textual_empty_eq (c : string) :
  py_eq (numericise c) (VText EmptyString) = String.eqb c EmptyString.
Proof.
  rewrite py_eq_numericise. destruct (String.eqb c EmptyString) eqn:E.
  - apply String.eqb_eq in E. now subst.
  - reflexivity.
Qed.

Lemma py_eq_text_refl (s : string) : py_eq (VText s) (VText s) = true.
Proof. simpl. apply String.eqb_refl. Qed.

Lemma py_eq_text_trans (s : string) (k k' : value) :
  py_eq k k' = true -> py_eq (VText s) k = py_eq (VText s) k'.
Proof.
  destruct k as [x|x], k' as [y|y]; simpl; try discriminate; try reflexivity.
  intros H. apply String.eqb_eq in H. now subst.
Qed.

Lemma py_eq_text_eq (s : string) (k : value) :
  py_eq (VText s) k = true <-> k = VText s.
Proof.
  destruct k as [x|x]; simpl.
  - rewrite String.eqb_eq. split; [now intros -> | now intros [= ->]].
  - split; discriminate.
Qed.


(** ** Calls that meet no fault *)

Lemma remote_ok {A} (op : list row -> A * list row) s c u :
  Sheet.remote op (mkWorld s c u []) =
  (Return (fst (op s)), mkWorld (snd (op s)) c u []).
Proof. unfold Sheet.remote. simpl. destruct (op s). reflexivity. Qed.

Lemma ensure_headers_ok s c u :
  ensure_headers (mkWorld s c u []) = (Return tt, mkWorld (with_header s) c u []).
Proof.
  unfold ensure_headers, bind, Sheet.row_values, with_header.
  rewrite remote_ok. simpl.
  destruct (Sheet.trim _); [unfold Sheet.append_row; rewrite remote_ok|];
    reflexivity.
Qed.

Lemma get_all_records_ok s c u :
  Sheet.get_all_records (mkWorld s c u []) =
  (if Sheet.header_ok s then Return (Sheet.records_of s)
   else Raise "GSpreadException",
   mkWorld s c u []).
Proof.
  unfold Sheet.get_all_records, bind. rewrite remote_ok. cbn [fst snd].
  now destruct (Sheet.header_ok s).
Qed.

Lemma for_each_load (records : list (dict value)) s c u f :
  for_each records (fun record =>
    let resume_id := get_default "ID" (VText "") record in
    if py_truthy resume_id
    then entry <- lift (resume_of_record resume_id record) ;;
         cache_set resume_id entry
    else ret tt) (mkWorld s c u f)
  = (fst (load records c), mkWorld s (snd (load records c)) u f).
Proof.
  revert c. induction records as [|record records IH]; intros c.
  - reflexivity.
  - cbn [for_each load]. unfold bind at 1. unfold keep_record. cbv zeta.
    destruct (py_truthy _); [|apply IH].
    unfold bind, lift.
    destruct (resume_of_record _ record) as [entry|e]; [|reflexivity].
    cbn [cache_set sheet resumes uploads faults]. apply IH.
Qed.

(** A handler that only prints hides every exception of the block. *)
Lemma try_swallow (m : M unit) (w : world) :
  try_except m (fun _ => ret tt) w = (Return tt, exec m w).
Proof.
  unfold try_except, exec. destruct (m w) as [[[]|e] w']; reflexivity.
Qed.

(** The cache after a refresh that meets no fault: rebuilt from the
    records, as far as the loop got, or left alone when reading the
    records raised. *)
Lemma fetch_ok s c u :
  fetch_resumes_from_sheets (mkWorld s c u []) =
  (Return tt,
   mkWorld (with_header s)
           (if Sheet.header_ok (with_header s)
            then snd (load (Sheet.records_of (with_header s)) [])
            else c)
           u []).
Proof.
  unfold fetch_resumes_from_sheets. rewrite try_swallow. unfold exec, bind at 1.
  rewrite ensure_headers_ok. unfold bind at 1. rewrite get_all_records_ok.
  destruct (Sheet.header_ok (with_header s)); [|reflexivity].
  unfold bind at 1. cbn [cache_clear sheet resumes uploads faults].
  now rewrite for_each_load.
Qed.

(** ** Dictionaries *)

Lemma get_set_same {V} (k : string) (v : V) (d : dict V) :
  get k (set k v d) = Some v.
Proof.
  induction d as [|[k' v'] d IH]; cbn [get set].
  - now rewrite py_eq_text_refl.
  - destruct (py_eq k k') eqn:E; cbn [get]; rewrite E; [reflexivity | exact IH].
Qed.

Lemma get_set_other {V} (k : string) (k' : value) (v : V) (d : dict V) :
  py_eq k k' = false -> get k (set k' v d) = get k d.
Proof.
  intros Hne. induction d as [|[k'' v''] d IH]; cbn [get set].
  - now rewrite Hne.
  - destruct (py_eq k' k'') eqn:E; cbn [get].
    + rewrite <- (py_eq_text_trans k k' k'' E). now rewrite Hne.
    + now rewrite IH.
Qed.

Lemma get_zip_other {V} (k : string) (l : list (string * V)) (d : dict V) :
  Forall (fun kv => fst kv <> k) l ->
  get k (fold_left (fun d kv => set (VText (fst kv)) (snd kv) d) l d) = get k d.
Proof.
  revert d. induction l as [|[k' v'] l IH]; intros d Hall; simpl.
  - reflexivity.
  - inversion Hall as [|? ? Hk Hl]; subst. rewrite (IH _ Hl).
    apply get_set_other. cbn [fst py_eq] in *. apply String.eqb_neq. congruence.
Qed.

Lemma combine_repeat_keys {V} (k : string) (m : nat) (vs : list V) :
  Forall (fun kv => fst kv = k) (combine (repeat k m) vs).
Proof.
  revert vs. induction m as [|m IH]; intros vs; simpl.
  - constructor.
  - destruct vs; constructor; [reflexivity | apply IH].
Qed.

(** ** Rows below the header *)

Lemma nth_pad (i n : nat) (r : row) : cell i (Sheet.pad n r) = cell i r.
Proof.
  unfold cell, Sheet.pad.
  destruct (Nat.lt_ge_cases i (List.length r)) as [Hlt|Hge].
  - now rewrite app_nth1.
  - rewrite app_nth2 by exact Hge. rewrite (nth_overflow r) by exact Hge.
    apply nth_repeat.
Qed.

Lemma length_pad (n : nat) (r : row) : n <= List.length (Sheet.pad n r).
Proof. unfold Sheet.pad. rewrite length_app, repeat_length. lia. Qed.

Lemma eight_cells {A} (d : A) (l : list A) :
  8 <= List.length l ->
  l = nth 0 l d :: nth 1 l d :: nth 2 l d :: nth 3 l d :: nth 4 l d
        :: nth 5 l d :: nth 6 l d :: nth 7 l d :: skipn 8 l.
Proof.
  intros H.
  do 8 (destruct l as [|? l]; [simpl in H; lia|]).
  reflexivity.
Qed.

Lemma nth_numericised (i n : nat) (r : row) :
  nth i (map numericise (Sheet.pad n r)) (VText EmptyString) =
  numericise (cell i r).
Proof.
  rewrite <- numericise_empty, map_nth. fold (cell i (Sheet.pad n r)).
  now rewrite nth_pad.
Qed.

Lemma width_header (rows : list row) : 8 <= Sheet.width (EXPECTED_HEADERS :: rows).
Proof. unfold Sheet.width. cbn [fold_right]. apply Nat.le_max_l. Qed.

Lemma width_bound (n : nat) (rows : list row) :
  Forall (fun r => List.length r <= n) rows -> Sheet.width rows <= n.
Proof.
  unfold Sheet.width. induction 1 as [|r rows Hr _ IH]; cbn [fold_right].
  - lia.
  - apply Nat.max_lub; assumption.
Qed.

(** With rows of at most nine cells the header, filled up to the width
    of the table, repeats no key. *)
Lemma header_ok_narrow (rows : list row) :
  Forall (fun r => List.length r <= 9) rows ->
  Sheet.header_ok (EXPECTED_HEADERS :: rows) = true.
Proof.
  intros Hrows. unfold Sheet.header_ok, Sheet.fill_gaps. cbn [map].
  pose proof (width_header rows) as Hlo.
  assert (Hhi : Sheet.width (EXPECTED_HEADERS :: rows) <= 9).
  { apply width_bound. constructor; [cbn; lia | exact Hrows]. }
  destruct (Nat.eq_dec (Sheet.width (EXPECTED_HEADERS :: rows)) 8) as [->|Hne].
  - reflexivity.
  - replace (Sheet.width (EXPECTED_HEADERS :: rows)) with 9 by lia.
    reflexivity.
Qed.

Lemma plain_narrow (rows : list row) :
  Forall plain rows -> Forall (fun r => List.length r <= 9) rows.
Proof. apply Forall_impl. now intros r (H & _). Qed.

(** Under the header row, the record of a row maps each header to what
    [numericise] makes of the cell below it. *)
Lemma record_under_header (n i : nat) (r : row) :
  8 <= n -> i < 8 ->
  get (nth i EXPECTED_HEADERS EmptyString)
      (of_zip (Sheet.pad n EXPECTED_HEADERS) (map numericise (Sheet.pad n r)))
  = Some (numericise (cell i r)).
Proof.
  intros Hn Hi.
  pose proof (length_pad n r) as Hlen.
  assert (Hcells := eight_cells (VText EmptyString)
                      (map numericise (Sheet.pad n r))
                      ltac:(rewrite length_map; lia)).
  rewrite !nth_numericised in Hcells. rewrite Hcells.
  unfold of_zip, Sheet.pad at 1.
  change (List.length EXPECTED_HEADERS) with 8.
  cbn [EXPECTED_HEADERS app combine fold_left fst snd].
  rewrite get_zip_other.
  - do 8 (destruct i as [|i]; [reflexivity|]). lia.
  - eapply Forall_impl; [|apply combine_repeat_keys].
    intros [k v] Hk. simpl in *. subst k.
    do 8 (destruct i as [|i]; [discriminate|]). lia.
Qed.

Lemma record_fields (n : nat) (r : row) :
  8 <= n ->
  let record :=
    of_zip (Sheet.pad n EXPECTED_HEADERS) (map numericise (Sheet.pad n r)) in
  get "ID" record = Some (numericise (cell 0 r)) /\
  get "Filename" record = Some (numericise (cell 1 r)) /\
  get "Name" record = Some (numericise (cell 2 r)) /\
  get "Email" record = Some (numericise (cell 3 r)) /\
  get "Phone" record = Some (numericise (cell 4 r)) /\
  get "LinkedIn" record = Some (numericise (cell 5 r)) /\
  get "GitHub" record = Some (numericise (cell 6 r)) /\
  get "Skills" record = Some (numericise (cell 7 r)).
Proof.
  intros Hn record. subst record.
  repeat split.
  - exact (record_under_header n 0 r Hn ltac:(lia)).
  - exact (record_under_header n 1 r Hn ltac:(lia)).
  - exact (record_under_header n 2 r Hn ltac:(lia)).
  - exact (record_under_header n 3 r Hn ltac:(lia)).
  - exact (record_under_header n 4 r Hn ltac:(lia)).
  - exact (record_under_header n 5 r Hn ltac:(lia)).
  - exact (record_under_header n 6 r Hn ltac:(lia)).
  - exact (record_under_header n 7 r Hn ltac:(lia)).
Qed.

Lemma records_of_header (rows : list row) :
  Sheet.records_of (EXPECTED_HEADERS :: rows) =
  let n := Sheet.width (EXPECTED_HEADERS :: rows) in
  map (fun r => of_zip (Sheet.pad n EXPECTED_HEADERS)
                       (map numericise (Sheet.pad n r))) rows.
Proof.
  unfold Sheet.records_of, Sheet.fill_gaps. cbn [map]. now rewrite map_map.
Qed.

Lemma keep_record_row (n : nat) (c : dict resume) (r : row) :
  8 <= n ->
  textual (cell 0 r) = true -> textual (cell 7 r) = true ->
  keep_record c (of_zip (Sheet.pad n EXPECTED_HEADERS)
                        (map numericise (Sheet.pad n r))) =
  Return (keep_row c r).
Proof.
  intros Hn Hid Hskills.
  destruct (record_fields n r Hn) as (H0 & H1 & H2 & H3 & H4 & H5 & H6 & H7).
  unfold keep_record, keep_row, resume_of_record, resume_of_row, get_default.
  cbv zeta. rewrite H0, H1, H2, H3, H4, H5, H6, H7.
  rewrite (numericise_textual _ Hid), (numericise_textual _ Hskills).
  cbn [py_truthy]. now destruct (PyStr.truthy (cell 0 r)).
Qed.

Lemma load_header (rows : list row) (c : dict resume) :
  Forall plain rows ->
  load (Sheet.records_of (EXPECTED_HEADERS :: rows)) c =
  (Return tt, fold_left keep_row rows c).
Proof.
  intros Hplain. rewrite records_of_header. cbv zeta.
  pose proof (width_header rows) as Hn.
  generalize dependent (Sheet.width (EXPECTED_HEADERS :: rows)). intros n Hn.
  revert c. induction Hplain as [|r rows (_ & Hid & Hsk) _ IH]; intros c.
  - reflexivity.
  - cbn [map load fold_left]. rewrite (keep_record_row n c r Hn Hid Hsk).
    apply IH.
Qed.

Lemma phone_taken_header (rows : list row) (phone : string) :
  phone_taken (Sheet.records_of (EXPECTED_HEADERS :: rows)) phone =
  existsb (fun r => String.eqb (cell 4 r) phone && textual (cell 4 r)) rows.
Proof.
  rewrite records_of_header. cbv zeta.
  pose proof (width_header rows) as Hn.
  generalize dependent (Sheet.width (EXPECTED_HEADERS :: rows)). intros n Hn.
  induction rows as [|r rows IH]; cbn [map phone_taken existsb].
  - reflexivity.
  - destruct (record_fields n r Hn) as (_ & _ & _ & _ & H4 & _).
    rewrite H4, IH, py_eq_numericise.
    now destruct (String.eqb (cell 4 r) phone && textual (cell 4 r)).
Qed.

Lemma with_header_header (rows : list row) :
  with_header (EXPECTED_HEADERS :: rows) = EXPECTED_HEADERS :: rows.
Proof. reflexivity. Qed.

(** The refresh of the cache on a table of plain rows. *)
Lemma fetch_header (rows : list row) c u :
  Forall plain rows ->
  exec fetch_resumes_from_sheets (mkWorld (EXPECTED_HEADERS :: rows) c u []) =
  mkWorld (EXPECTED_HEADERS :: rows) (fold_left keep_row rows []) u [].
Proof.
  intros Hplain. unfold exec. rewrite fetch_ok. cbn [snd].
  rewrite with_header_header, (header_ok_narrow rows (plain_narrow rows Hplain)).
  now rewrite (load_header rows [] Hplain).
Qed.

(** ** The upload folder is out of the way of every table computation *)

Lemma frames_ret {A} (a : A) : frames (ret a).
Proof. intros u w. reflexivity. Qed.

Lemma frames_bind {A B} (m : M A) (k : A -> M B) :
  frames m -> (forall a, frames (k a)) -> frames (bind m k).
Proof.
  intros Hm Hk u w. unfold bind. rewrite (Hm u w). unfold result, exec.
  destruct (m w) as [[a|e] w']; simpl; [apply (Hk a u w') | reflexivity].
Qed.

Lemma frames_try {A} (m : M A) (h : string -> M A) :
  frames m -> (forall e, frames (h e)) -> frames (try_except m h).
Proof.
  intros Hm Hh u w. unfold try_except. rewrite (Hm u w). unfold result, exec.
  destruct (m w) as [[a|e] w']; simpl; [reflexivity | apply (Hh e u w')].
Qed.

Lemma frames_remote {A} (op : list row -> A * list row) :
  frames (Sheet.remote op).
Proof.
  intros u [s c u0 f]. unfold Sheet.remote, result, exec, with_uploads. simpl.
  destruct f as [|[] f]; simpl; try reflexivity; now destruct (op s).
Qed.

Lemma frames_for_each {A} (l : list A) (body : A -> M unit) :
  (forall a, frames (body a)) -> frames (for_each l body).
Proof.
  intros Hb. induction l as [|x l IH]; simpl.
  - apply frames_ret.
  - apply frames_bind; [apply Hb | intros _; exact IH].
Qed.

Lemma frames_ensure_headers : frames ensure_headers.
Proof.
  apply frames_bind; [apply frames_remote|].
  intros [|? ?]; [apply frames_remote | apply frames_ret].
Qed.

Lemma frames_lift {A} (o : outcome A) : frames (lift o).
Proof. intros u w. reflexivity. Qed.

Lemma frames_get_all_records : frames Sheet.get_all_records.
Proof.
  apply frames_bind; [apply frames_remote | intros data].
  destruct (Sheet.header_ok data); [apply frames_ret | apply frames_lift].
Qed.

Lemma frames_fetch : frames fetch_resumes_from_sheets.
Proof.
  apply frames_try; [|intros; apply frames_ret].
  apply frames_bind; [apply frames_ensure_headers | intros _].
  apply frames_bind; [apply frames_get_all_records | intros records].
  apply frames_bind; [intros u w; reflexivity | intros _].
  apply frames_for_each. intros record. cbv zeta.
  destruct (py_truthy _); [|apply frames_ret].
  apply frames_bind; [apply frames_lift | intros entry].
  intros u w. reflexivity.
Qed.

Lemma frames_get_all_resumes : frames get_all_resumes.
Proof.
  apply frames_try; [|intros; apply frames_ret].
  apply frames_bind; [apply frames_fetch | intros _].
  apply frames_bind; [intros u w; reflexivity | intros cache].
  apply frames_ret.
Qed.

(** ** Uploads whose text is blank *)

Lemma upload_blank_text sf et ed hex file text w :
  up_filename file <> EmptyString ->
  allowed_file (up_filename file) = true ->
  et (up_content file) = Return text ->
  PyStr.strip text = EmptyString ->
  upload_resume sf et ed hex (Some file) w =
  (Return (JError "Could not extract text from file", 500),
   with_uploads
     (set (UPLOAD_FOLDER ++ "/" ++ hex ++ "_" ++ sf (up_filename file))%string
          (up_content file) (uploads w)) w).
Proof.
  intros Hname Hallowed Htext Hstrip.
  unfold upload_resume.
  apply String.eqb_neq in Hname. rewrite Hname, Hallowed. cbn [negb].
  unfold try_except, bind, save, lift. rewrite Htext, Hstrip. reflexivity.
Qed.

(** C7.  An accepted upload whose extracted text is empty is answered
    with the extraction error (status 500).  The table and the cache are
    left as they were, so the listing that follows returns what it would
    have returned before the upload. *)
Theorem C7_empty_text_rejected sf et ed hex file w :
  up_filename file <> EmptyString ->
  allowed_file (up_filename file) = true ->
  et (up_content file) = Return EmptyString ->
  let create := upload_resume sf et ed hex (Some file) in
  result create w = Return (JError "Could not extract text from file", 500) /\
  sheet (exec create w) = sheet w /\
  resumes (exec create w) = resumes w /\
  result get_all_resumes (exec create w) = result get_all_resumes w.
Proof.
  intros Hname Hallowed Htext create. subst create. unfold result, exec.
  rewrite (upload_blank_text sf et ed hex file EmptyString w
             Hname Hallowed Htext eq_refl).
  cbn [fst snd]. repeat split.
  rewrite frames_get_all_resumes. reflexivity.
Qed.

Lemma C7_empty_text_rejected_witness :
  let file := mkUpload "cv.pdf" "" in
  let w := mkWorld Sample.header_only [] [] [true] in
  let d := mkDetails "Ann" "ann@example.org" "555-0100" "" "" ["Rocq"] in
  let create :=
    upload_resume Sample.secure_filename Sample.extract_text_from_pdf
                  (Sample.extract_details d) "0f" (Some file) in
  up_filename file <> EmptyString /\
  allowed_file (up_filename file) = true /\
  Sample.extract_text_from_pdf (up_content file) = Return EmptyString /\
  result create w = Return (JError "Could not extract text from file", 500) /\
  sheet (exec create w) = sheet w /\
  resumes (exec create w) = resumes w /\
  result get_all_resumes (exec create w) = result get_all_resumes w.
Proof.
  intros file w d create.
  assert (Hname : up_filename file <> EmptyString) by discriminate.
  assert (Hallowed : allowed_file (up_filename file) = true) by reflexivity.
  assert (Htext : Sample.extract_text_from_pdf (up_content file)
                  = Return EmptyString) by reflexivity.
  split; [exact Hname|]. split; [exact Hallowed|]. split; [exact Htext|].
  exact (C7_empty_text_rejected
           Sample.secure_filename Sample.extract_text_from_pdf
           (Sample.extract_details d) "0f" file w Hname Hallowed Htext).
Defined.

(** C10.  An accepted upload whose extracted text is not empty but holds
    white space only gets the same answer as an empty text.  No remote
    call is made (the fault schedule is not consumed, so the duplicate
    scan did not run), no row is appended and the cache is not touched. *)
Theorem C10_blank_text_rejected sf et ed hex file text w :
  up_filename file <> EmptyString ->
  allowed_file (up_filename file) = true ->
  et (up_content file) = Return text ->
  text <> EmptyString ->
  PyStr.all_space text = true ->
  let create := upload_resume sf et ed hex (Some file) in
  result create w = Return (JError "Could not extract text from file", 500) /\
  faults (exec create w) = faults w /\
  sheet (exec create w) = sheet w /\
  resumes (exec create w) = resumes w.
Proof.
  intros Hname Hallowed Htext _ Hspace create. subst create.
  unfold result, exec.
  rewrite (upload_blank_text sf et ed hex file text w
             Hname Hallowed Htext (strip_all_space text Hspace)).
  repeat split.
Qed.

Lemma C10_blank_text_rejected_witness :
  let text := String " " (String "009" (String "010" " ")) in
  let file := mkUpload "cv.docx" text in
  let w := mkWorld Sample.header_only [] [] [true] in
  let d := mkDetails "Ann" "ann@example.org" "555-0100" "" "" ["Rocq"] in
  let create :=
    upload_resume Sample.secure_filename Sample.extract_text_from_pdf
                  (Sample.extract_details d) "0f" (Some file) in
  up_filename file <> EmptyString /\
  allowed_file (up_filename file) = true /\
  Sample.extract_text_from_pdf (up_content file) = Return text /\
  text <> EmptyString /\
  PyStr.all_space text = true /\
  result create w = Return (JError "Could not extract text from file", 500) /\
  faults (exec create w) = faults w /\
  sheet (exec create w) = sheet w /\
  resumes (exec create w) = resumes w.
Proof.
  intros text file w d create.
  assert (Hname : up_filename file <> EmptyString) by discriminate.
  assert (Hallowed : allowed_file (up_filename file) = true) by reflexivity.
  assert (Htext : Sample.extract_text_from_pdf (up_content file)
                  = Return text) by reflexivity.
  assert (Hne : text <> EmptyString) by discriminate.
  assert (Hspace : PyStr.all_space text = true) by reflexivity.
  split; [exact Hname|]. split; [exact Hallowed|]. split; [exact Htext|].
  split; [exact Hne|]. split; [exact Hspace|].
  exact (C10_blank_text_rejected
           Sample.secure_filename Sample.extract_text_from_pdf
           (Sample.extract_details d) "0f" file text w
           Hname Hallowed Htext Hne Hspace).
Defined.

(** ** Remote calls under any fault schedule *)

Lemma remote_cases {A} (op : list row -> A * list row) (w : world) :
  (exists f, faults w = true :: f /\
     Sheet.remote op w =
     (Raise "APIError", mkWorld (sheet w) (resumes w) (uploads w) f)) \/
  (hd false (faults w) = false /\
     Sheet.remote op w =
     (Return (fst (op (sheet w))),
      mkWorld (snd (op (sheet w))) (resumes w) (uploads w) (tl (faults w)))).
Proof.
  destruct w as [s c u f]. unfold Sheet.remote. simpl.
  destruct f as [|[] f]; simpl.
  - right. split; [reflexivity | now destruct (op s)].
  - left. now exists f.
  - right. split; [reflexivity | now destruct (op s)].
Qed.

(** [ensure_headers] either returns with the header ensured or raises
    with the table as it found it; the cache is never touched. *)
Lemma ensure_headers_any (w : world) :
  resumes (exec ensure_headers w) = resumes w /\
  uploads (exec ensure_headers w) = uploads w /\
  match result ensure_headers w with
  | Return _ => sheet (exec ensure_headers w) = with_header (sheet w)
  | Raise _ => sheet (exec ensure_headers w) = sheet w
  end.
Proof.
  unfold result, exec, ensure_headers, bind, Sheet.row_values, with_header.
  destruct (remote_cases (fun s => (Sheet.trim (nth (1 - 1) s []), s)) w)
    as [(f & _ & ->) | (_ & ->)]; cbn [fst snd sheet resumes uploads].
  - repeat split.
  - change (1 - 1) with 0.
    destruct (Sheet.trim (nth 0 (sheet w) [])) as [|x t].
    + unfold Sheet.append_row.
      match goal with |- context [Sheet.remote ?op ?w1] =>
        destruct (remote_cases op w1) as [(f & _ & ->) | (_ & ->)]
      end; cbn [fst snd sheet resumes uploads]; repeat split.
    + cbn. repeat split.
Qed.

Lemma call_times_succ (n : nat) (m : M unit) (w : world) :
  call_times (S n) m w = call_times n m (exec m w).
Proof. cbn [call_times]. unfold bind. now rewrite try_swallow. Qed.

Lemma with_header_filled (s : list row) :
  first_row_filled s -> with_header s = s.
Proof.
  unfold first_row_filled, with_header.
  destruct (Sheet.trim (nth 0 s [])); [congruence | reflexivity].
Qed.

Lemma ensure_headers_filled (w : world) :
  first_row_filled (sheet w) -> sheet (exec ensure_headers w) = sheet w.
Proof.
  intros Hf. destruct (ensure_headers_any w) as (_ & _ & H).
  destruct (result ensure_headers w); [|exact H].
  now rewrite H, with_header_filled.
Qed.

Lemma ensure_headers_times_filled (n : nat) (w : world) :
  first_row_filled (sheet w) ->
  sheet (exec (call_times n ensure_headers) w) = sheet w.
Proof.
  revert w. induction n as [|n IH]; intros w Hf; [reflexivity|].
  unfold exec. rewrite call_times_succ. fold (exec (call_times n ensure_headers)
                                                  (exec ensure_headers w)).
  pose proof (ensure_headers_filled w Hf) as Hs.
  rewrite IH; [exact Hs | now rewrite Hs].
Qed.

Lemma ensure_headers_times_empty (n : nat) (w : world) :
  sheet w = [] ->
  sheet (exec (call_times n ensure_headers) w) = [] \/
  sheet (exec (call_times n ensure_headers) w) = [EXPECTED_HEADERS].
Proof.
  revert w. induction n as [|n IH]; intros w He; [now left|].
  unfold exec. rewrite call_times_succ. fold (exec (call_times n ensure_headers)
                                                  (exec ensure_headers w)).
  destruct (ensure_headers_any w) as (_ & _ & H).
  destruct (result ensure_headers w).
  - right. rewrite ensure_headers_times_filled; rewrite H, He.
    + reflexivity.
    + discriminate.
  - apply IH. now rewrite H.
Qed.

Lemma ensure_headers_times_grow (n : nat) (w : world) :
  exists k, k <= n /\
    sheet (exec (call_times n ensure_headers) w) =
    sheet w ++ repeat EXPECTED_HEADERS k.
Proof.
  revert w. induction n as [|n IH]; intros w.
  - exists 0. split; [lia | now rewrite app_nil_r].
  - unfold exec. rewrite call_times_succ.
    fold (exec (call_times n ensure_headers) (exec ensure_headers w)).
    destruct (IH (exec ensure_headers w)) as (k & Hk & ->).
    destruct (ensure_headers_any w) as (_ & _ & H).
    destruct (result ensure_headers w).
    + rewrite H. unfold with_header.
      destruct (Sheet.trim (nth 0 (sheet w) [])).
      * exists (S k). split; [lia|]. now rewrite <- app_assoc.
      * exists k. split; [lia | reflexivity].
    + rewrite H. exists k. split; [lia | reflexivity].
Qed.

Lemma ensure_headers_times_resumes (n : nat) (w : world) :
  resumes (exec (call_times n ensure_headers) w) = resumes w.
Proof.
  revert w. induction n as [|n IH]; intros w; [reflexivity|].
  unfold exec. rewrite call_times_succ.
  fold (exec (call_times n ensure_headers) (exec ensure_headers w)).
  rewrite IH. apply ensure_headers_any.
Qed.

Lemma ensure_headers_times_blank (n : nat) s c u :
  s <> [] -> ~ first_row_filled s ->
  call_times n ensure_headers (mkWorld s c u []) =
  (Return tt, mkWorld (s ++ repeat EXPECTED_HEADERS n) c u []).
Proof.
  intros Hne Hblank. revert s Hne Hblank.
  induction n as [|n IH]; intros s Hne Hblank.
  - cbn. now rewrite app_nil_r.
  - rewrite call_times_succ. unfold exec. rewrite ensure_headers_ok.
    cbn [snd]. unfold first_row_filled in Hblank.
    assert (Hw : with_header s = s ++ [EXPECTED_HEADERS]).
    { unfold with_header. destruct (Sheet.trim (nth 0 s [])); [reflexivity|].
      exfalso. apply Hblank. discriminate. }
    rewrite Hw, IH.
    + now rewrite <- app_assoc.
    + destruct s; [congruence | discriminate].
    + unfold first_row_filled. destruct s as [|r s]; [congruence|]. exact Hblank.
Qed.

(** ** The header row *)

(** C8, as the code has it.  Whatever the faults, any number of calls of
    [ensure_headers] only ever appends copies of the header after the
    last row: the rows already there keep their content and their order,
    and the cache is not touched.  When the first row holds something no
    row is added; from an empty table at most one header row is added.
    When the first row is blank while other rows exist, the header is
    appended below them and the first row stays blank, so every further
    call that meets no fault appends one more header row. *)
Theorem C8_header_ensured (n : nat) (w : world) :
  let w' := exec (call_times n ensure_headers) w in
  resumes w' = resumes w /\
  (exists k, k <= n /\ sheet w' = sheet w ++ repeat EXPECTED_HEADERS k) /\
  (first_row_filled (sheet w) -> sheet w' = sheet w) /\
  (sheet w = [] -> sheet w' = [] \/ sheet w' = [EXPECTED_HEADERS]) /\
  (faults w = [] -> sheet w <> [] -> ~ first_row_filled (sheet w) ->
   sheet w' = sheet w ++ repeat EXPECTED_HEADERS n).
Proof.
  cbv zeta. split; [apply ensure_headers_times_resumes|].
  split; [apply ensure_headers_times_grow|].
  split; [apply ensure_headers_times_filled|].
  split; [apply ensure_headers_times_empty|].
  destruct w as [s c u f]. cbn [faults sheet]. intros -> Hne Hblank.
  unfold exec. now rewrite ensure_headers_times_blank.
Qed.

Lemma C8_header_ensured_witness :
  let w := mkWorld Sample.header_only [] [] [false; true; false] in
  first_row_filled (sheet w) /\
  sheet (exec (call_times 3 ensure_headers) w) = sheet w.
Proof.
  intros w.
  assert (Hf : first_row_filled (sheet w)) by (cbv; discriminate).
  split; [exact Hf|].
  exact (proj1 (proj2 (proj2 (C8_header_ensured 3 w))) Hf).
Defined.

(** C8 as stated fails: with a blank first row above a data row, two
    calls leave two header rows in the table. *)
Lemma C8_counterexample :
  let s := [ repeat EmptyString 8;
             ["0f_cv.pdf"; "cv.pdf"; "Ann"; "ann@example.org"; "555-0100";
              ""; ""; "Rocq"] ] in
  let w := mkWorld s [] [] [] in
  header_count (sheet w) = 0 /\
  ~ header_count (sheet (exec (call_times 2 ensure_headers) w)) <= 1.
Proof.
  cbv zeta. split; [reflexivity|].
  vm_compute. intros H. apply Nat.nle_succ_diag_l in H. exact H.
Qed.

(** ** The row written for a resume *)

Lemma append_empty_r (s : string) : (s ++ EmptyString)%string = s.
Proof. induction s as [|c s IH]; simpl; [reflexivity | now rewrite IH]. Qed.

Lemma join_comma_separated (l : list string) :
  PyStr.join ", " l = comma_separated l.
Proof.
  destruct l as [|x l]; [reflexivity|]. unfold comma_separated.
  revert x. induction l as [|y l IH]; intros x.
  - cbn. now rewrite append_empty_r.
  - change (PyStr.join ", " (x :: y :: l))
      with ((x ++ ", " ++ PyStr.join ", " (y :: l))%string).
    now rewrite IH.
Qed.

(** C9.  [append_to_google_sheet], when no remote call fails, leaves the
    table with the header ensured and one more row at the end.  That row
    holds the fields of the resume under the headers ID, Filename, Name,
    Email, Phone, LinkedIn, GitHub and Skills, in this order; its last
    cell is the skills in their order with a comma and a space between
    neighbours.  For the resume of Ann, with the skills Rocq and Python,
    the row ends with the cell [Rocq, Python]. *)
Theorem C9_row_layout (data : resume) s c u :
  let w' := exec (append_to_google_sheet data) (mkWorld s c u []) in
  sheet w' =
    with_header s ++
    [[ cell_text (r_id data); cell_text (r_filename data);
       cell_text (r_name data); cell_text (r_email data);
       cell_text (r_phone data); cell_text (r_linkedin data);
       cell_text (r_github data); comma_separated (r_skills data) ]] /\
  combine EXPECTED_HEADERS (last (sheet w') []) =
    [ ("ID", cell_text (r_id data)); ("Filename", cell_text (r_filename data));
      ("Name", cell_text (r_name data)); ("Email", cell_text (r_email data));
      ("Phone", cell_text (r_phone data));
      ("LinkedIn", cell_text (r_linkedin data));
      ("GitHub", cell_text (r_github data));
      ("Skills", comma_separated (r_skills data)) ] /\
  sheet (exec (append_to_google_sheet
                 (created Sample.secure_filename "0f" Sample.cv Sample.ann))
              Sample.empty_world) =
    [ ["ID"; "Filename"; "Name"; "Email"; "Phone"; "LinkedIn"; "GitHub";
       "Skills"];
      ["0f_cv.pdf"; "cv.pdf"; "Ann"; "ann@example.org"; "555-0100"; ""; "";
       "Rocq, Python"] ].
Proof.
  cbv zeta.
  unfold exec, append_to_google_sheet, try_except, bind.
  rewrite ensure_headers_ok. unfold Sheet.append_row. rewrite remote_ok.
  cbn [fst snd sheet]. unfold sheet_row. rewrite join_comma_separated.
  split; [reflexivity|]. split; [now rewrite last_last | reflexivity].
Qed.

(** ** An upload that passed the checks on the file and on its text *)

Lemma append_returns (data : resume) (w : world) :
  append_to_google_sheet data w =
  (Return tt, exec (append_to_google_sheet data) w).
Proof.
  unfold exec, append_to_google_sheet. rewrite try_swallow. reflexivity.
Qed.

Lemma get_all_records_any (w : world) :
  Sheet.get_all_records w =
  (if hd false (faults w) then Raise "APIError"
   else if Sheet.header_ok (sheet w) then Return (Sheet.records_of (sheet w))
   else Raise "GSpreadException",
   mkWorld (sheet w) (resumes w) (uploads w) (tl (faults w))).
Proof.
  unfold Sheet.get_all_records, bind.
  destruct (remote_cases (fun s : list row => (s, s)) w)
    as [(f & Hf & ->) | (Hf & ->)]; rewrite Hf; [reflexivity|].
  cbn [fst snd hd]. now destruct (Sheet.header_ok (sheet w)).
Qed.

Lemma upload_accepted sf et ed hex file text d w :
  up_filename file <> EmptyString ->
  allowed_file (up_filename file) = true ->
  et (up_content file) = Return text ->
  PyStr.strip text <> EmptyString ->
  ed text = Return d ->
  let u1 := set (upload_path sf hex file) (up_content file) (uploads w) in
  let r := created sf hex file d in
  upload_resume sf et ed hex (Some file) w =
  if hd false (faults w) || negb (Sheet.header_ok (sheet w))
  then (Return (JError "Internal Server Error", 500),
        mkWorld (sheet w) (resumes w) u1 (tl (faults w)))
  else if phone_taken (Sheet.records_of (sheet w)) (d_phone d)
  then (Return (JError "Resume already uploaded!!.", 400),
        mkWorld (sheet w) (resumes w) u1 (tl (faults w)))
  else (Return (JResume r, 200),
        exec (append_to_google_sheet r)
             (mkWorld (sheet w) (set (r_id r) r (resumes w)) u1
                      (tl (faults w)))).
Proof.
  intros Hname Hallowed Htext Hstrip Hd u1 r.
  unfold upload_resume.
  apply String.eqb_neq in Hname. rewrite Hname, Hallowed. cbn [negb].
  unfold try_except at 1. unfold bind at 1. unfold save at 1.
  unfold bind at 1. unfold lift at 1. rewrite Htext.
  destruct (PyStr.strip text) as [|a t] eqn:Es; [congruence|].
  cbn [PyStr.truthy negb].
  unfold bind at 1. unfold lift at 1. rewrite Hd.
  unfold bind at 1. rewrite get_all_records_any.
  cbn [faults sheet resumes uploads].
  destruct (hd false (faults w)); [reflexivity|].
  destruct (Sheet.header_ok (sheet w)); [|reflexivity]. cbn [orb negb].
  destruct (phone_taken _ _); [reflexivity|].
  unfold bind at 1. unfold cache_set at 1.
  cbn [faults sheet resumes uploads fst snd].
  unfold bind at 1. rewrite append_returns. reflexivity.
Qed.

Lemma try_handled {A} (m : M A) (a0 : A) (w : world) :
  exists a, result (try_except m (fun _ => ret a0)) w = Return a.
Proof.
  unfold result, try_except. destruct (m w) as [[a|e] w']; eexists; reflexivity.
Qed.

Lemma append_ok (data : resume) s c u :
  append_to_google_sheet data (mkWorld s c u []) =
  (Return tt, mkWorld (with_header s ++ [sheet_row data]) c u []).
Proof.
  unfold append_to_google_sheet, try_except, bind.
  rewrite ensure_headers_ok. unfold Sheet.append_row. now rewrite remote_ok.
Qed.

(** Whatever the faults, [append_to_google_sheet] writes at most the
    header and the row of the resume, and leaves the cache alone. *)
Lemma append_sheet_any (data : resume) (w : world) :
  let w' := exec (append_to_google_sheet data) w in
  resumes w' = resumes w /\
  (sheet w' = sheet w \/
   sheet w' = with_header (sheet w) \/
   sheet w' = with_header (sheet w) ++ [sheet_row data]).
Proof.
  cbv zeta. unfold append_to_google_sheet, exec. rewrite try_swallow.
  unfold exec, bind.
  destruct (ensure_headers_any w) as (Hc & _ & Hs).
  unfold result, exec in *.
  destruct (ensure_headers w) as [[[]|e] w1]; cbn [fst snd] in *.
  - unfold Sheet.append_row.
    destruct (remote_cases (fun s => (tt, s ++ [sheet_row data])) w1)
      as [(f & _ & ->) | (_ & ->)]; cbn [fst snd sheet resumes].
    + split; [exact Hc | right; left; exact Hs].
    + split; [exact Hc | right; right; now rewrite Hs].
  - split; [exact Hc | left; exact Hs].
Qed.

(** ** A phone number that looks like a number *)

Lemma not_textual_not_taken (rows : list row) (phone : string) :
  textual phone = false ->
  existsb (fun r => String.eqb (cell 4 r) phone && textual (cell 4 r)) rows
  = false.
Proof.
  intros Hnum. induction rows as [|r rows IH]; cbn [existsb]; [reflexivity|].
  rewrite IH, orb_false_r.
  destruct (String.eqb (cell 4 r) phone) eqn:E; [|reflexivity].
  apply String.eqb_eq in E. now rewrite E, Hnum.
Qed.

Lemma taken_empty (rows : list row) :
  existsb (fun r => String.eqb (cell 4 r) EmptyString && textual (cell 4 r))
          rows =
  existsb (fun r => String.eqb (cell 4 r) EmptyString) rows.
Proof.
  induction rows as [|r rows IH]; cbn [existsb]; [reflexivity|].
  rewrite IH. f_equal.
  destruct (String.eqb (cell 4 r) EmptyString) eqn:E; [|reflexivity].
  apply String.eqb_eq in E. now rewrite E.
Qed.

(** C1 fails in the code.  The scan compares the extracted phone, a
    string, with the Phone cells as [get_all_records] returns them, and
    a cell made of digits comes back as a number.  So an accepted upload
    whose phone [int] or [float] accepts is never found to be a
    duplicate: with the header in place, rows of at most nine cells and
    no remote failure it answers 200 and its row is appended, also when
    rows of the table hold that very phone. *)
Theorem C1_numeric_phone_not_detected sf et ed hex file text d rows c u :
  up_filename file <> EmptyString ->
  allowed_file (up_filename file) = true ->
  et (up_content file) = Return text ->
  PyStr.strip text <> EmptyString ->
  ed text = Return d ->
  Forall (fun x => List.length x <= 9) rows ->
  textual (d_phone d) = false ->
  let w := mkWorld (EXPECTED_HEADERS :: rows) c u [] in
  let create := upload_resume sf et ed hex (Some file) in
  let r := created sf hex file d in
  result create w = Return (JResume r, 200) /\
  sheet (exec create w) = EXPECTED_HEADERS :: rows ++ [sheet_row r].
Proof.
  intros Hname Hallowed Htext Hstrip Hd Hnarrow Hnum w create r.
  subst w create. unfold result, exec.
  rewrite (upload_accepted sf et ed hex file text d _
             Hname Hallowed Htext Hstrip Hd).
  cbn [faults sheet resumes uploads hd tl].
  rewrite (header_ok_narrow rows Hnarrow). cbn [orb negb].
  rewrite phone_taken_header, (not_textual_not_taken rows _ Hnum).
  fold r. unfold exec. rewrite append_ok. now split.
Qed.

Lemma C1_numeric_phone_not_detected_witness :
  let d := mkDetails "Ann" "ann@example.org" "5550100" "" "" ["Rocq"] in
  let first := ["0f_cv.pdf"; "cv.pdf"; "Ann"; "ann@example.org"; "5550100";
                ""; ""; "Rocq"] in
  let w := mkWorld [EXPECTED_HEADERS; first] [] [] [] in
  let create := Sample.post d "1a" Sample.cv2 in
  let r := created Sample.secure_filename "1a" Sample.cv2 d in
  Forall (fun x => List.length x <= 9) [first] /\
  textual (d_phone d) = false /\
  cell 4 first = d_phone d /\
  result create w = Return (JResume r, 200) /\
  sheet (exec create w) =
    [ EXPECTED_HEADERS; first;
      ["1a_cv-new.docx"; "cv-new.docx"; "Ann"; "ann@example.org"; "5550100";
       ""; ""; "Rocq"] ].
Proof.
  intros d first w create r.
  assert (Hnarrow : Forall (fun x => List.length x <= 9) [first])
    by (repeat constructor; cbn; lia).
  assert (Hnum : textual (d_phone d) = false) by reflexivity.
  split; [exact Hnarrow|]. split; [exact Hnum|]. split; [reflexivity|].
  refine (C1_numeric_phone_not_detected
            Sample.secure_filename Sample.extract_text_from_pdf
            (Sample.extract_details d) "1a" Sample.cv2
            (up_content Sample.cv2) d [first] [] []
            _ _ _ _ _ Hnarrow Hnum).
  - discriminate.
  - reflexivity.
  - reflexivity.
  - vm_compute. discriminate.
  - reflexivity.
Defined.

(** ** The empty phone number *)

(** C3, as the code has it.  The scan compares the Phone cell of every
    row with the extracted phone and makes no exception for the empty
    string: an accepted upload whose extracted phone is empty is refused
    as a duplicate exactly when some row of the table has an empty Phone
    cell, and is written otherwise (no remote call failing, no row of
    more than nine cells). *)
Theorem C3_empty_phone_checked sf et ed hex file text d rows c u :
  up_filename file <> EmptyString ->
  allowed_file (up_filename file) = true ->
  et (up_content file) = Return text ->
  PyStr.strip text <> EmptyString ->
  ed text = Return d ->
  d_phone d = EmptyString ->
  Forall (fun x => List.length x <= 9) rows ->
  let w := mkWorld (EXPECTED_HEADERS :: rows) c u [] in
  let create := upload_resume sf et ed hex (Some file) in
  let r := created sf hex file d in
  let blank := existsb (fun x => String.eqb (cell 4 x) EmptyString) rows in
  result create w =
    Return (if blank then (JError "Resume already uploaded!!.", 400)
            else (JResume r, 200)) /\
  sheet (exec create w) =
    (if blank then EXPECTED_HEADERS :: rows
     else EXPECTED_HEADERS :: rows ++ [sheet_row r]) /\
  resumes (exec create w) = (if blank then c else set (r_id r) r c).
Proof.
  intros Hname Hallowed Htext Hstrip Hd Hphone Hnarrow w create r blank.
  subst w create r blank. unfold result, exec.
  rewrite (upload_accepted sf et ed hex file text d _
             Hname Hallowed Htext Hstrip Hd).
  cbn [faults sheet resumes uploads hd tl].
  rewrite (header_ok_narrow rows Hnarrow). cbn [orb negb].
  rewrite phone_taken_header, Hphone, taken_empty.
  destruct (existsb (fun x => String.eqb (cell 4 x) EmptyString) rows);
    [repeat split|].
  unfold exec. rewrite append_ok. repeat split.
Qed.

Lemma C3_empty_phone_checked_witness :
  let d := mkDetails "Bob" "bob@example.org" "" "" "" ["Go"] in
  let file := mkUpload "bob.pdf" "Bob" in
  let w := mkWorld [EXPECTED_HEADERS; Sample.ann_row] [] [] [] in
  let create := Sample.post d "2b" file in
  let r := created Sample.secure_filename "2b" file d in
  d_phone d = EmptyString /\
  Forall (fun x => List.length x <= 9) [Sample.ann_row] /\
  result create w = Return (JResume r, 200) /\
  sheet (exec create w) = [EXPECTED_HEADERS; Sample.ann_row; sheet_row r] /\
  resumes (exec create w) = [(r_id r, r)].
Proof.
  intros d file w create r.
  assert (Hnarrow : Forall (fun x => List.length x <= 9) [Sample.ann_row])
    by (repeat constructor; cbn; lia).
  split; [reflexivity|]. split; [exact Hnarrow|].
  refine (C3_empty_phone_checked
            Sample.secure_filename Sample.extract_text_from_pdf
            (Sample.extract_details d) "2b" file (up_content file) d
            [Sample.ann_row] [] [] _ _ _ _ _ _ Hnarrow).
  - discriminate.
  - reflexivity.
  - reflexivity.
  - vm_compute. discriminate.
  - reflexivity.
  - reflexivity.
Defined.

(** C3 as stated fails: with a row whose Phone cell is empty in the
    table, an upload whose extracted phone is empty is reported as a
    duplicate and nothing is written. *)
Lemma C3_counterexample :
  let d := mkDetails "Bob" "bob@example.org" "" "" "" ["Go"] in
  let eve := ["1a_eve.pdf"; "eve.pdf"; "Eve"; "eve@example.org"; ""; ""; "";
              "C"] in
  let w := mkWorld [EXPECTED_HEADERS; eve] [] [] [] in
  let create := Sample.post d "2b" (mkUpload "bob.pdf" "Bob") in
  d_phone d = EmptyString /\
  result create w = Return (JError "Resume already uploaded!!.", 400) /\
  sheet (exec create w) = sheet w.
Proof. cbv zeta. repeat split. Qed.

(** ** A remote append that fails *)

Lemma with_header_cases (s : list row) :
  with_header s = s \/ with_header s = s ++ [EXPECTED_HEADERS].
Proof. unfold with_header. destruct (Sheet.trim _); [now right | now left]. Qed.

Lemma append_block_raise (data : resume) (w : world) (e : string) :
  let block := (ensure_headers ;; Sheet.append_row (sheet_row data))%py in
  result block w = Raise e ->
  resumes (exec block w) = resumes w /\
  (sheet (exec block w) = sheet w \/
   sheet (exec block w) = sheet w ++ [EXPECTED_HEADERS]).
Proof.
  cbv zeta. unfold result, exec, bind.
  destruct (ensure_headers_any w) as (Hc & _ & Hs).
  unfold result, exec in *.
  destruct (ensure_headers w) as [[[]|e'] w1]; cbn [fst snd] in *.
  - unfold Sheet.append_row.
    destruct (remote_cases (fun s => (tt, s ++ [sheet_row data])) w1)
      as [(f & _ & ->) | (_ & ->)]; cbn [fst snd sheet resumes].
    + intros _. split; [exact Hc|]. rewrite Hs.
      destruct (with_header_cases (sheet w)) as [-> | ->]; [now left | now right].
    + discriminate.
  - intros _. split; [exact Hc | now left].
Qed.

(** C2, as the code has it.  Once the scan has read the records and
    found no duplicate, the resume is put into the cache before
    [append_to_google_sheet] is called, and an exception of the remote
    append is caught there: the upload still answers 200 with the
    resume, the cache holds it, and the table got no row for it (at most
    the header). *)
Theorem C2_append_failure_swallowed sf et ed hex file text d w e :
  up_filename file <> EmptyString ->
  allowed_file (up_filename file) = true ->
  et (up_content file) = Return text ->
  PyStr.strip text <> EmptyString ->
  ed text = Return d ->
  hd false (faults w) = false ->
  Sheet.header_ok (sheet w) = true ->
  phone_taken (Sheet.records_of (sheet w)) (d_phone d) = false ->
  let r := created sf hex file d in
  let create := upload_resume sf et ed hex (Some file) in
  let w1 := mkWorld (sheet w) (set (r_id r) r (resumes w))
                    (set (upload_path sf hex file) (up_content file)
                         (uploads w))
                    (tl (faults w)) in
  result (ensure_headers ;; Sheet.append_row (sheet_row r))%py w1 = Raise e ->
  result create w = Return (JResume r, 200) /\
  get (r_id r) (resumes (exec create w)) = Some r /\
  (sheet (exec create w) = sheet w \/
   sheet (exec create w) = sheet w ++ [EXPECTED_HEADERS]).
Proof.
  intros Hname Hallowed Htext Hstrip Hd Hread Hkeys Hp r create w1 Hraise.
  subst create. unfold result at 1, exec.
  rewrite (upload_accepted sf et ed hex file text d w
             Hname Hallowed Htext Hstrip Hd).
  rewrite Hread, Hkeys, Hp. cbn [orb negb fst snd]. fold r. fold w1.
  split; [reflexivity|].
  unfold exec, append_to_google_sheet. rewrite try_swallow.
  destruct (append_block_raise r w1 e Hraise) as (Hc & Hs).
  cbv zeta in Hc, Hs. cbn [snd]. rewrite Hc.
  split; [apply get_set_same | exact Hs].
Qed.

Lemma C2_append_failure_swallowed_witness :
  let w := mkWorld Sample.header_only [] [] [false; false; true] in
  let r := created Sample.secure_filename "0f" Sample.cv Sample.ann in
  let create := Sample.post Sample.ann "0f" Sample.cv in
  let w1 := mkWorld (sheet w) (set (r_id r) r (resumes w))
                    (set (upload_path Sample.secure_filename "0f" Sample.cv)
                         (up_content Sample.cv) (uploads w))
                    (tl (faults w)) in
  result (ensure_headers ;; Sheet.append_row (sheet_row r))%py w1
    = Raise "APIError" /\
  result create w = Return (JResume r, 200) /\
  get (r_id r) (resumes (exec create w)) = Some r /\
  (sheet (exec create w) = sheet w \/
   sheet (exec create w) = sheet w ++ [EXPECTED_HEADERS]).
Proof.
  intros w r create w1.
  assert (Hraise :
    result (ensure_headers ;; Sheet.append_row (sheet_row r))%py w1
    = Raise "APIError") by reflexivity.
  split; [exact Hraise|].
  refine (C2_append_failure_swallowed
            Sample.secure_filename Sample.extract_text_from_pdf
            (Sample.extract_details Sample.ann) "0f" Sample.cv
            (up_content Sample.cv) Sample.ann w "APIError"
            _ _ _ _ _ _ _ _ Hraise).
  - discriminate.
  - reflexivity.
  - reflexivity.
  - vm_compute. discriminate.
  - reflexivity.
  - reflexivity.
  - reflexivity.
  - reflexivity.
Defined.

(** C2 as stated fails: the header is in place, the scan reads the table
    and finds no duplicate, then [append_row] raises.  The upload answers
    200 with the resume, which is in the cache and not in the table. *)
Lemma C2_counterexample :
  let w := mkWorld Sample.header_only [] [] [false; false; true] in
  let r := created Sample.secure_filename "0f" Sample.cv Sample.ann in
  let create := Sample.post Sample.ann "0f" Sample.cv in
  result create w = Return (JResume r, 200) /\
  get (r_id r) (resumes (exec create w)) = Some r /\
  sheet (exec create w) = Sample.header_only.
Proof. cbv zeta. repeat split. Qed.

(** ** Refreshing the cache and the three routes that start with it *)

Lemma fetch_returns (w : world) :
  fetch_resumes_from_sheets w = (Return tt, exec fetch_resumes_from_sheets w).
Proof.
  unfold exec, fetch_resumes_from_sheets. rewrite try_swallow. reflexivity.
Qed.

Lemma get_all_resumes_any (w : world) :
  get_all_resumes w =
  (Return (JResumes (values (resumes (exec fetch_resumes_from_sheets w))), 200),
   exec fetch_resumes_from_sheets w).
Proof.
  unfold get_all_resumes, try_except, bind. now rewrite fetch_returns.
Qed.

Lemma get_resume_any (resume_id : string) (w : world) :
  get_resume resume_id w =
  (Return match get resume_id (resumes (exec fetch_resumes_from_sheets w)) with
          | Some r => (JResume r, 200)
          | None => (JError "Resume not found", 404)
          end,
   exec fetch_resumes_from_sheets w).
Proof.
  unfold get_resume, try_except, bind. rewrite fetch_returns.
  cbn [cache_read]. now destruct (get resume_id _).
Qed.

Lemma delete_first_find (resume_id : string) (sheet_data : list row)
      (idx : nat) (w : world) :
  delete_first resume_id sheet_data idx w =
  match find_row resume_id sheet_data with
  | Some i => Sheet.delete_rows (idx + i + 1) w
  | None => (Return tt, w)
  end.
Proof.
  revert idx. induction sheet_data as [|r rest IH]; intros idx; simpl.
  - reflexivity.
  - destruct (row_has_id resume_id r).
    + now rewrite Nat.add_0_r.
    + rewrite IH. destruct (find_row resume_id rest); simpl; [|reflexivity].
      match goal with
      | |- Sheet.delete_rows ?a _ = Sheet.delete_rows ?b _ =>
          now replace a with b by lia
      end.
Qed.

(** [delete_resume] once the id was found in the refreshed cache. *)
Lemma delete_found (resume_id : string) (w : world) :
  let w1 := exec fetch_resumes_from_sheets w in
  mem resume_id (resumes w1) = true ->
  delete_resume resume_id w =
  try_except
    (sheet_data <- Sheet.get_all_values ;;
     delete_first resume_id sheet_data 0 ;;
     ret (JMessage "Resume deleted successfully", 200))
    (fun _ => ret (JError "Internal Server Error", 500))
    (mkWorld (sheet w1) (del resume_id (resumes w1)) (uploads w1) (faults w1)).
Proof.
  cbv zeta. intros Hmem.
  unfold delete_resume, try_except, bind at 1.
  rewrite fetch_returns. unfold bind at 1. cbn [cache_read].
  rewrite Hmem. cbn [negb]. unfold bind at 1. cbn [cache_del].
  reflexivity.
Qed.

Lemma delete_missing (resume_id : string) (w : world) :
  let w1 := exec fetch_resumes_from_sheets w in
  mem resume_id (resumes w1) = false ->
  delete_resume resume_id w = (Return (JError "Resume not found", 404), w1).
Proof.
  cbv zeta. intros Hmem.
  unfold delete_resume, try_except, bind at 1.
  rewrite fetch_returns. unfold bind at 1. cbn [cache_read].
  rewrite Hmem. reflexivity.
Qed.

(** ** Which remote failures reach the caller *)






(** ** Keys of the cache after a refresh *)

Lemma mem_keys {V} (k : string) (d : dict V) :
  mem k d = true <-> In (VText k) (keys d).
Proof.
  unfold mem. induction d as [|[k' v] d IH]; cbn [get keys map fst In].
  - split; [discriminate | intros []].
  - destruct (py_eq k k') eqn:E.
    + apply py_eq_text_eq in E. subst. split; [now left | reflexivity].
    + fold (keys d). rewrite IH. split; [now right|].
      intros [H|H]; [|exact H]. subst k'. now rewrite py_eq_text_refl in E.
Qed.

Lemma keys_set_new {V} (k : string) (v : V) (d : dict V) :
  ~ In (VText k) (keys d) -> keys (set k v d) = keys d ++ [VText k].
Proof.
  induction d as [|[k' v'] d IH]; cbn [set keys map fst In app]; intros Hn.
  - reflexivity.
  - destruct (py_eq k k') eqn:E.
    + apply py_eq_text_eq in E. subst. exfalso. apply Hn. now left.
    + cbn [map fst]. fold (keys d) (keys (set k v d)).
      rewrite IH; [reflexivity|]. intros H. apply Hn. now right.
Qed.

Lemma NoDup_text (l : list string) : NoDup l -> NoDup (map VText l).
Proof.
  induction 1 as [|x l Hx _ IH]; cbn [map]; constructor; [|exact IH].
  intros Hin. apply in_map_iff in Hin. destruct Hin as (y & [= ->] & Hy).
  contradiction.
Qed.



Lemma listed_header (rows : list row) c u :
  Forall plain rows ->
  listed (mkWorld (EXPECTED_HEADERS :: rows) c u []) =
  values (fold_left keep_row rows []).
Proof.
  intros Hplain. unfold listed, result. rewrite get_all_resumes_any.
  cbn [fst]. now rewrite (fetch_header rows c u Hplain).
Qed.


(** ** Deleting a row *)

Lemma row_has_id_pad (resume_id : string) (n : nat) (r : row) :
  1 <= n ->
  row_has_id resume_id (Sheet.pad n r) = String.eqb (cell 0 r) resume_id.
Proof.
  intros Hn. unfold Sheet.pad, cell. destruct r as [|x r]; [|reflexivity].
  destruct n as [|n]; [lia | reflexivity].
Qed.

Lemma find_row_drop (resume_id : string) (n : nat) (l : list row) :
  1 <= n ->
  match find_row resume_id (map (Sheet.pad n) l) with
  | Some i => Sheet.remove_nth i l
  | None => l
  end = drop_row resume_id l.
Proof.
  intros Hn. induction l as [|r l IH]; simpl; [reflexivity|].
  rewrite (row_has_id_pad resume_id n r Hn).
  destruct (String.eqb (cell 0 r) resume_id); [reflexivity|].
  rewrite <- IH. now destruct (find_row resume_id (map (Sheet.pad n) l)).
Qed.





(** [delete_resume] on a table of plain rows under the header, no fault,
    the id being that of a row and not the word ID. *)
Lemma delete_ok (resume_id : string) (rows : list row) c u :
  Forall plain rows ->
  resume_id <> "ID" ->
  mem resume_id (fold_left keep_row rows []) = true ->
  delete_resume resume_id (mkWorld (EXPECTED_HEADERS :: rows) c u []) =
  (Return (JMessage "Resume deleted successfully", 200),
   mkWorld (EXPECTED_HEADERS :: drop_row resume_id rows)
           (del resume_id (fold_left keep_row rows [])) u []).
Proof.
  intros Hplain Hid Hmem.
  pose proof (fetch_header rows c u Hplain) as Hfetch.
  rewrite delete_found; rewrite Hfetch; [|exact Hmem].
  cbn [sheet resumes uploads faults].
  unfold try_except, bind at 1, Sheet.get_all_values. rewrite remote_ok.
  cbn [fst snd]. unfold bind at 1. rewrite delete_first_find.
  pose proof (find_row_drop resume_id (Sheet.width (EXPECTED_HEADERS :: rows))
                (EXPECTED_HEADERS :: rows)) as Hdrop.
  unfold Sheet.fill_gaps.
  assert (Hw : 1 <= Sheet.width (EXPECTED_HEADERS :: rows))
    by (pose proof (width_header rows); lia).
  specialize (Hdrop Hw).
  assert (Hhdr : drop_row resume_id (EXPECTED_HEADERS :: rows) =
                 EXPECTED_HEADERS :: drop_row resume_id rows).
  { cbn [drop_row]. change (cell 0 EXPECTED_HEADERS) with "ID".
    assert (E : String.eqb "ID" resume_id = false)
      by (apply String.eqb_neq; congruence).
    now rewrite E. }
  rewrite Hhdr in Hdrop.
  destruct (find_row resume_id _) as [i|].
  - unfold Sheet.delete_rows. rewrite remote_ok. cbn [fst snd].
    replace (0 + i + 1 - 1) with i by lia. now rewrite Hdrop.
  - now rewrite <- Hdrop.
Qed.






(** ** Reading back what an upload wrote *)








(** ** The scenario of the two uploads *)

(** An upload with phone 555-0100 succeeds; a second upload with the same
    phone and another file name is refused and the listing still has one
    resume; deleting the first makes the listing empty and its lookup
    answer 404. *)
Example scenario_duplicate_then_delete :
  let first := Sample.post Sample.ann "0f" Sample.cv in
  let second := Sample.post Sample.ann "1a" Sample.cv2 in
  let w1 := exec first Sample.empty_world in
  let w2 := exec second w1 in
  let w3 := exec (delete_resume "0f_cv.pdf") w2 in
  (exists r, result first Sample.empty_world = Return (JResume r, 200) /\
             r_id r = "0f_cv.pdf") /\
  result second w1 = Return (JError "Resume already uploaded!!.", 400) /\
  List.length (listed w2) = 1 /\
  result (delete_resume "0f_cv.pdf") w2 =
    Return (JMessage "Resume deleted successfully", 200) /\
  listed w3 = [] /\
  result (get_resume "0f_cv.pdf") w3 = Return (JError "Resume not found", 404).
Proof.
  cbv zeta. split; [eexists; split; reflexivity|].
  repeat split.
Qed.

(** * Further properties of the routes *)

(** ** File names *)

Lemma after_last_dot_none (s : string) :
  has_dot s = false -> PyStr.after_last_dot s = None.
Proof.
  induction s as [|c s IH]; simpl; [reflexivity|].
  intros H. apply orb_false_elim in H. destruct H as [Hc Hs].
  now rewrite (IH Hs), Hc.
Qed.

Lemma after_last_dot_app (base ext : string) :
  has_dot ext = false ->
  PyStr.after_last_dot (base ++ String "." ext) = Some ext.
Proof.
  intros Hext. induction base as [|c base IH]; simpl.
  - now rewrite (after_last_dot_none ext Hext).
  - now rewrite IH.
Qed.

(** X1.  A name made of any base, a dot and an extension without a dot
    is allowed exactly when the extension, in lower case, is [pdf] or
    [docx]: only what follows the last dot counts, whatever the case of
    its letters. *)
Theorem X1_allowed_by_extension (base ext : string) :
  has_dot ext = false ->
  allowed_file (base ++ String "." ext) =
  (String.eqb (PyStr.lower ext) "pdf" || String.eqb (PyStr.lower ext) "docx").
Proof.
  intros Hext. unfold allowed_file. rewrite (after_last_dot_app base ext Hext).
  cbn [existsb ALLOWED_EXTENSIONS]. now rewrite orb_false_r.
Qed.

Lemma X1_allowed_by_extension_witness :
  has_dot "DocX" = false /\
  allowed_file ("my.resume.v2" ++ String "." "DocX") =
  (String.eqb (PyStr.lower "DocX") "pdf" || String.eqb (PyStr.lower "DocX") "docx").
Proof.
  assert (H : has_dot "DocX" = false) by reflexivity.
  split; [exact H|]. exact (X1_allowed_by_extension "my.resume.v2" "DocX" H).
Defined.

(** X2.  A name without a dot is never allowed, even when it is itself
    one of the two extensions. *)
Theorem X2_no_dot_not_allowed (filename : string) :
  has_dot filename = false -> allowed_file filename = false.
Proof.
  intros H. unfold allowed_file. now rewrite (after_last_dot_none filename H).
Qed.

Lemma X2_no_dot_not_allowed_witness :
  has_dot "pdf" = false /\ allowed_file "pdf" = false.
Proof.
  assert (H : has_dot "pdf" = false) by reflexivity.
  split; [exact H|]. exact (X2_no_dot_not_allowed "pdf" H).
Defined.

(** ** Every way an upload can end *)

Lemma append_keeps_uploads (data : resume) (w : world) :
  uploads (exec (append_to_google_sheet data) w) = uploads w.
Proof.
  unfold append_to_google_sheet, exec. rewrite try_swallow. unfold exec, bind.
  destruct (ensure_headers_any w) as (_ & Hu & _). unfold exec in Hu.
  destruct (ensure_headers w) as [[[]|e] w1]; cbn [fst snd] in *; [|exact Hu].
  unfold Sheet.append_row.
  destruct (remote_cases (fun s => (tt, s ++ [sheet_row data])) w1)
    as [(f & _ & ->) | (_ & ->)]; cbn [snd uploads]; exact Hu.
Qed.

Lemma upload_outcomes sf et ed hex files w :
  (exists msg,
      upload_resume sf et ed hex files w = (Return (JError msg, 400), w) /\
      (files = None \/
       exists file, files = Some file /\
         (up_filename file = EmptyString \/
          allowed_file (up_filename file) = false))) \/
  (exists file msg code fs,
      files = Some file /\
      up_filename file <> EmptyString /\
      allowed_file (up_filename file) = true /\
      (code = 400 \/ code = 500) /\
      upload_resume sf et ed hex files w =
      (Return (JError msg, code),
       mkWorld (sheet w) (resumes w)
               (set (upload_path sf hex file) (up_content file) (uploads w))
               fs)) \/
  (exists file text d,
      files = Some file /\
      up_filename file <> EmptyString /\
      allowed_file (up_filename file) = true /\
      et (up_content file) = Return text /\
      PyStr.strip text <> EmptyString /\
      ed text = Return d /\
      hd false (faults w) = false /\
      Sheet.header_ok (sheet w) = true /\
      phone_taken (Sheet.records_of (sheet w)) (d_phone d) = false /\
      upload_resume sf et ed hex files w =
      (Return (JResume (created sf hex file d), 200),
       exec (append_to_google_sheet (created sf hex file d))
            (mkWorld (sheet w)
                     (set (r_id (created sf hex file d))
                          (created sf hex file d) (resumes w))
                     (set (upload_path sf hex file) (up_content file)
                          (uploads w))
                     (tl (faults w))))).
Proof.
  destruct files as [file|].
  2:{ left. eexists. split; [reflexivity | now left]. }
  destruct (String.eqb (up_filename file) EmptyString) eqn:Ename.
  { left. eexists. split.
    - unfold upload_resume. rewrite Ename. reflexivity.
    - right. exists file. split; [reflexivity|]. left.
      now apply String.eqb_eq. }
  destruct (allowed_file (up_filename file)) eqn:Eallowed.
  2:{ left. eexists. split.
      - unfold upload_resume. rewrite Ename, Eallowed. reflexivity.
      - right. exists file. split; [reflexivity | now right]. }
  assert (Hname : up_filename file <> EmptyString)
    by now apply String.eqb_neq.
  destruct (et (up_content file)) as [text|e] eqn:Etext.
  2:{ right. left. exists file. do 3 eexists.
      split; [reflexivity|]. split; [exact Hname|]. split; [exact Eallowed|].
      split; [right; reflexivity|].
      unfold upload_resume. rewrite Ename, Eallowed. cbn [negb].
      unfold try_except, bind, save, lift. rewrite Etext. reflexivity. }
  destruct (PyStr.strip text) as [|a t] eqn:Estrip.
  { right. left. exists file. do 3 eexists.
    split; [reflexivity|]. split; [exact Hname|]. split; [exact Eallowed|].
    split; [right; reflexivity|].
    exact (upload_blank_text sf et ed hex file text w
             Hname Eallowed Etext Estrip). }
  destruct (ed text) as [d|e] eqn:Ed.
  2:{ right. left. exists file. do 3 eexists.
      split; [reflexivity|]. split; [exact Hname|]. split; [exact Eallowed|].
      split; [right; reflexivity|].
      unfold upload_resume. rewrite Ename, Eallowed. cbn [negb].
      unfold try_except, bind, save, lift. rewrite Etext, Estrip.
      cbn [PyStr.truthy negb]. rewrite Ed. reflexivity. }
  assert (Hstrip : PyStr.strip text <> EmptyString) by (rewrite Estrip; discriminate).
  pose proof (upload_accepted sf et ed hex file text d w
                Hname Eallowed Etext Hstrip Ed) as Hacc.
  cbv zeta in Hacc.
  destruct (hd false (faults w)) eqn:Ehd.
  { right. left. exists file. do 3 eexists.
    split; [reflexivity|]. split; [exact Hname|]. split; [exact Eallowed|].
    split; [right; reflexivity | exact Hacc]. }
  destruct (Sheet.header_ok (sheet w)) eqn:Ekeys.
  2:{ right. left. exists file. do 3 eexists.
      split; [reflexivity|]. split; [exact Hname|]. split; [exact Eallowed|].
      split; [right; reflexivity | exact Hacc]. }
  cbn [orb negb] in Hacc.
  destruct (phone_taken (Sheet.records_of (sheet w)) (d_phone d)) eqn:Ep.
  { right. left. exists file. do 3 eexists.
    split; [reflexivity|]. split; [exact Hname|]. split; [exact Eallowed|].
    split; [left; reflexivity | exact Hacc]. }
  right. right. exists file, text, d.
  repeat (split; [first [reflexivity | assumption]|]). exact Hacc.
Qed.

(** X3.  An upload that does not answer 200 answers 400 or 500 with an
    error message, and has changed neither the table nor the cache:
    whatever the request, the collaborators and the remote failures, a
    refused or failed upload writes no row and caches nothing. *)
Theorem X3_failed_upload_changes_nothing sf et ed hex files w :
  let create := upload_resume sf et ed hex files in
  (forall r, result create w <> Return (JResume r, 200)) ->
  (exists msg code,
      result create w = Return (JError msg, code) /\
      (code = 400 \/ code = 500)) /\
  sheet (exec create w) = sheet w /\
  resumes (exec create w) = resumes w.
Proof.
  cbv zeta. intros Hfail. unfold result, exec in *.
  destruct (upload_outcomes sf et ed hex files w)
    as [(msg & -> & _) | [(file & msg & code & fs & _ & _ & _ & Hcode & ->)
                         | (file & text & d & _ & _ & _ & _ & _ & _ & _ & _ & _ & H)]].
  - split; [exists msg, 400; split; [reflexivity | now left]|]. now split.
  - split; [exists msg, code; split; [reflexivity | exact Hcode]|]. now split.
  - exfalso. apply (Hfail (created sf hex file d)). now rewrite H.
Qed.

Lemma X3_failed_upload_changes_nothing_witness :
  let w := mkWorld [EXPECTED_HEADERS; Sample.ann_row] [] [] [] in
  let create := Sample.post Sample.ann "1a" Sample.cv2 in
  (forall r, result create w <> Return (JResume r, 200)) /\
  (exists msg code,
      result create w = Return (JError msg, code) /\
      (code = 400 \/ code = 500)) /\
  sheet (exec create w) = sheet w /\
  resumes (exec create w) = resumes w.
Proof.
  intros w create.
  assert (Hfail : forall r, result create w <> Return (JResume r, 200))
    by (intros r; vm_compute; discriminate).
  split; [exact Hfail|].
  exact (X3_failed_upload_changes_nothing
           Sample.secure_filename Sample.extract_text_from_pdf
           (Sample.extract_details Sample.ann) "1a" (Some Sample.cv2) w Hfail).
Defined.

(** X4.  An upload that answers 200 returns the resume built from the
    extracted details, with id [hex_name] and filename [name] where
    [name] is the secured file name, and that resume is in the cache
    under its id when the call returns, whether or not the remote append
    went through. *)
Theorem X4_successful_upload_cached sf et ed hex files w r :
  let create := upload_resume sf et ed hex files in
  result create w = Return (JResume r, 200) ->
  (exists file, files = Some file /\
     r_id r = (hex ++ "_" ++ sf (up_filename file))%string /\
     r_filename r = sf (up_filename file)) /\
  get (r_id r) (resumes (exec create w)) = Some r.
Proof.
  cbv zeta. unfold result, exec. intros Hok.
  destruct (upload_outcomes sf et ed hex files w)
    as [(msg & H & _) | [(file & msg & code & fs & _ & _ & _ & _ & H)
                        | (file & text & d & Hf & _ & _ & _ & _ & _ & _ & _ & _ & H)]];
    rewrite H in Hok; cbn [fst] in Hok; try discriminate.
  injection Hok as <-. rewrite H. cbn [snd]. split.
  - exists file. now repeat split.
  - destruct (append_sheet_any (created sf hex file d)
                (mkWorld (sheet w)
                   (set (r_id (created sf hex file d)) (created sf hex file d)
                        (resumes w))
                   (set (upload_path sf hex file) (up_content file) (uploads w))
                   (tl (faults w)))) as (Hc & _).
    cbv zeta in Hc. rewrite Hc. cbn [resumes]. apply get_set_same.
Qed.

Lemma X4_successful_upload_cached_witness :
  let w := mkWorld Sample.header_only [] [] [false; true] in
  let create := Sample.post Sample.ann "0f" Sample.cv in
  let r := created Sample.secure_filename "0f" Sample.cv Sample.ann in
  result create w = Return (JResume r, 200) /\
  (exists file, Some Sample.cv = Some file /\
     r_id r = ("0f" ++ "_" ++ Sample.secure_filename (up_filename file))%string /\
     r_filename r = Sample.secure_filename (up_filename file)) /\
  get (r_id r) (resumes (exec create w)) = Some r.
Proof.
  intros w create r.
  assert (Hok : result create w = Return (JResume r, 200)) by reflexivity.
  split; [exact Hok|].
  exact (X4_successful_upload_cached
           Sample.secure_filename Sample.extract_text_from_pdf
           (Sample.extract_details Sample.ann) "0f" (Some Sample.cv) w r Hok).
Defined.

(** X5.  The file is written to the upload folder as soon as its name
    has passed the checks, before its text is looked at: for a name that
    is not empty and is allowed, the folder holds the content under
    [uploads/hex_name] after the call, whatever the answer (extraction
    error, duplicate, remote failure or success).  A request refused for
    its name leaves the folder as it was. *)
Theorem X5_file_saved_first sf et ed hex file w :
  let create := upload_resume sf et ed hex (Some file) in
  let path := (UPLOAD_FOLDER ++ "/" ++ hex ++ "_" ++ sf (up_filename file))%string in
  (up_filename file <> EmptyString ->
   allowed_file (up_filename file) = true ->
   get path (uploads (exec create w)) = Some (up_content file)) /\
  (up_filename file = EmptyString \/ allowed_file (up_filename file) = false ->
   uploads (exec create w) = uploads w).
Proof.
  cbv zeta. unfold exec.
  destruct (upload_outcomes sf et ed hex (Some file) w)
    as [(msg & H & Hwhy) | [(file' & msg & code & fs & Hf & Hn & Ha & _ & H)
                        | (file' & text & d & Hf & Hn & Ha & _ & _ & _ & _ & _ & _ & H)]];
    rewrite H; cbn [snd].
  - destruct Hwhy as [Hnone | (file' & Hf & Hwhy)]; [discriminate|].
    injection Hf as <-. split; [|reflexivity].
    intros Hname Hallowed. destruct Hwhy; congruence.
  - injection Hf as <-. split.
    + intros _ _. cbn [uploads]. apply get_set_same.
    + intros [Hx|Hx]; congruence.
  - injection Hf as <-. split.
    + intros _ _. rewrite append_keeps_uploads. cbn [uploads].
      apply get_set_same.
    + intros [Hx|Hx]; congruence.
Qed.

Lemma X5_file_saved_first_witness :
  let w := mkWorld [EXPECTED_HEADERS; Sample.ann_row] [] [] [true] in
  let create := Sample.post Sample.ann "1a" Sample.cv2 in
  up_filename Sample.cv2 <> EmptyString /\
  allowed_file (up_filename Sample.cv2) = true /\
  get "uploads/1a_cv-new.docx" (uploads (exec create w))
    = Some (up_content Sample.cv2).
Proof.
  intros w create.
  assert (Hn : up_filename Sample.cv2 <> EmptyString) by discriminate.
  assert (Ha : allowed_file (up_filename Sample.cv2) = true) by reflexivity.
  split; [exact Hn|]. split; [exact Ha|].
  exact (proj1 (X5_file_saved_first
                  Sample.secure_filename Sample.extract_text_from_pdf
                  (Sample.extract_details Sample.ann) "1a" Sample.cv2 w) Hn Ha).
Defined.

(** ** What a listing returns *)

Lemma set_new_app {V} (k : string) (v : V) (d : dict V) :
  ~ In (VText k) (keys d) -> set k v d = d ++ [(VText k, v)].
Proof.
  induction d as [|[k' v'] d IH]; cbn [set keys map fst In app]; intros Hn;
    [reflexivity|].
  destruct (py_eq k k') eqn:E.
  - apply py_eq_text_eq in E. subst. exfalso. apply Hn. now left.
  - fold (keys d) in Hn. rewrite IH; [reflexivity|].
    intros H. apply Hn. now right.
Qed.

Lemma load_rows_exact (rows : list row) (c : dict resume) :
  NoDup (keys c ++ map VText (column 0 rows)) ->
  fold_left keep_row rows c =
  c ++ map (fun r => (VText (cell 0 r), resume_of_row r)) (filter has_id rows).
Proof.
  revert c. induction rows as [|r rows IH]; intros c Hnd.
  - cbn. now rewrite app_nil_r.
  - cbn [fold_left filter]. unfold keep_row at 2, has_id at 1.
    unfold column in Hnd. cbn [map filter] in Hnd.
    destruct (PyStr.truthy (cell 0 r)); cbn [map] in Hnd.
    + assert (Hnew : ~ In (VText (cell 0 r)) (keys c)).
      { intros Hin. apply NoDup_remove_2 in Hnd. apply Hnd.
        apply in_or_app. now left. }
      rewrite (set_new_app _ _ _ Hnew). rewrite IH.
      * cbn [map]. now rewrite <- app_assoc.
      * unfold keys. rewrite map_app. cbn [map fst].
        rewrite <- app_assoc. exact Hnd.
    + now apply IH.
Qed.


(** X6.  With the header above plain rows (at most nine cells, ID and
    Skills cells not read as numbers), no remote failure and no id held
    by two rows, a listing returns one resume per row that has a
    non-empty ID cell, in the order of the rows, each holding what
    [numericise] makes of the cells of its row and the Skills cell
    split; rows whose ID cell is empty are passed over, and what the
    cache held before plays no part. *)
Theorem X6_listing_mirrors_table (rows : list row) c u :
  Forall plain rows ->
  NoDup (column 0 rows) ->
  listed (mkWorld (EXPECTED_HEADERS :: rows) c u []) =
  map (fun r =>
         mkResume (cell 0 r) (numericise (cell 1 r)) (numericise (cell 2 r))
                  (numericise (cell 3 r)) (numericise (cell 4 r))
                  (numericise (cell 5 r)) (numericise (cell 6 r))
                  (PyStr.split ", " (cell 7 r)))
      (filter (fun r => PyStr.truthy (cell 0 r)) rows).
Proof.
  intros Hplain Hnd. unfold listed, result.
  rewrite get_all_resumes_any, (fetch_header rows c u Hplain).
  cbn [fst resumes].
  rewrite (load_rows_exact rows []) by (now apply NoDup_text).
  cbn [app]. unfold values. now rewrite map_map.
Qed.

Lemma X6_listing_mirrors_table_witness :
  let blank := repeat EmptyString 8 in
  let rows := [Sample.ann_row; blank; Sample.bob_row] in
  Forall plain rows /\
  NoDup (column 0 rows) /\
  listed (mkWorld (EXPECTED_HEADERS :: rows) [] [] []) =
  map (fun r =>
         mkResume (cell 0 r) (numericise (cell 1 r)) (numericise (cell 2 r))
                  (numericise (cell 3 r)) (numericise (cell 4 r))
                  (numericise (cell 5 r)) (numericise (cell 6 r))
                  (PyStr.split ", " (cell 7 r)))
      (filter (fun r => PyStr.truthy (cell 0 r)) rows).
Proof.
  intros blank rows.
  assert (Hplain : Forall plain rows).
  { repeat (constructor; [split; [cbn; lia | split; reflexivity]|]).
    constructor. }
  assert (Hnd : NoDup (column 0 rows)).
  { vm_compute. repeat (constructor; [cbn; intuition discriminate|]).
    constructor. }
  split; [exact Hplain|]. split; [exact Hnd|].
  exact (X6_listing_mirrors_table rows [] [] Hplain Hnd).
Defined.



(** ** A refresh under any fault schedule *)

Lemma fetch_any (w : world) :
  let w' := exec fetch_resumes_from_sheets w in
  (sheet w' = sheet w \/ sheet w' = sheet w ++ [EXPECTED_HEADERS]) /\
  (first_row_filled (sheet w) -> sheet w' = sheet w) /\
  (resumes w' = resumes w \/
   resumes w' = snd (load (Sheet.records_of (sheet w')) [])).
Proof.
  cbv zeta. remember (exec fetch_resumes_from_sheets w) as w' eqn:E.
  unfold fetch_resumes_from_sheets, exec in E. rewrite try_swallow in E.
  unfold exec, bind at 1 in E.
  destruct (ensure_headers_any w) as (Hc & _ & Hs).
  unfold result, exec in Hc, Hs.
  destruct (ensure_headers w) as [[[]|e] w1]; cbn [fst snd] in Hc, Hs, E.
  - assert (Hsheet : (sheet w1 = sheet w \/
                      sheet w1 = sheet w ++ [EXPECTED_HEADERS]) /\
                     (first_row_filled (sheet w) -> sheet w1 = sheet w)).
    { rewrite Hs. split; [apply with_header_cases | apply with_header_filled]. }
    unfold bind at 1 in E. rewrite get_all_records_any in E.
    destruct (hd false (faults w1)).
    + subst w'. cbn [sheet resumes].
      split; [apply Hsheet|]. split; [apply Hsheet | left; exact Hc].
    + destruct (Sheet.header_ok (sheet w1)).
      * unfold bind at 1 in E.
        cbn [cache_clear sheet resumes uploads faults] in E.
        rewrite for_each_load in E. cbn [snd] in E. subst w'.
        cbn [sheet resumes].
        split; [apply Hsheet|]. split; [apply Hsheet | now right].
      * subst w'. cbn [sheet resumes].
        split; [apply Hsheet|]. split; [apply Hsheet | left; exact Hc].
  - subst w'. rewrite Hs.
    split; [now left|]. split; [reflexivity | left; exact Hc].
Qed.

(** The loop of the refresh gets through a first part of the records and
    stops either at their end or at the first record that raises. *)
Lemma load_prefix (records : list (dict value)) (c : dict resume) :
  exists k,
    load (firstn k records) c = (Return tt, snd (load records c)) /\
    (k = List.length records \/
     exists e, keep_record (snd (load records c)) (nth k records []) = Raise e).
Proof.
  revert c. induction records as [|record records IH]; intros c.
  - exists 0. split; [reflexivity | now left].
  - cbn [load]. destruct (keep_record c record) as [c'|e] eqn:E.
    + destruct (IH c') as (k & Hk & Hend). exists (S k).
      cbn [firstn load nth List.length]. rewrite E. split; [exact Hk|].
      destruct Hend as [->|Hend]; [now left | now right].
    + exists 0. cbn [firstn load snd nth]. split; [reflexivity|].
      right. now exists e.
Qed.

(** X13.  Whatever the remote failures, after
    [fetch_resumes_from_sheets] the cache is either exactly what it was
    (a remote call failed, or the header row repeated a key, before the
    cache was cleared) or exactly what the loop stores, starting from
    the empty cache, for a first part of the records of the table: all
    of them, or those above the first record at which the loop raises.
    In the second case nothing of the former content is kept. *)
Theorem X13_refresh_keeps_or_rebuilds (w : world) :
  let w' := exec fetch_resumes_from_sheets w in
  let records := Sheet.records_of (sheet w') in
  resumes w' = resumes w \/
  exists k,
    load (firstn k records) [] = (Return tt, resumes w') /\
    (k = List.length records \/
     exists e, keep_record (resumes w') (nth k records []) = Raise e).
Proof.
  cbv zeta. destruct (fetch_any w) as (_ & _ & [H|H]); [now left|].
  right. rewrite H. apply load_prefix.
Qed.

(** X14.  Whatever the remote failures, a listing and a lookup write at
    most one row, the header, after the last row, and they write nothing
    when the first row of the table already holds something; they never
    change or remove a row. *)
Theorem X14_reads_write_header_only (resume_id : string) (w : world) :
  let after_list := sheet (exec get_all_resumes w) in
  let after_get := sheet (exec (get_resume resume_id) w) in
  (after_list = sheet w \/ after_list = sheet w ++ [EXPECTED_HEADERS]) /\
  (after_get = sheet w \/ after_get = sheet w ++ [EXPECTED_HEADERS]) /\
  (first_row_filled (sheet w) ->
   after_list = sheet w /\ after_get = sheet w).
Proof.
  cbv zeta. unfold exec.
  rewrite get_all_resumes_any, get_resume_any. cbn [snd].
  destruct (fetch_any w) as (H1 & H2 & _). cbv zeta in H1, H2.
  split; [exact H1|]. split; [exact H1|].
  intros Hf. split; exact (H2 Hf).
Qed.

Lemma X14_reads_write_header_only_witness :
  let w := mkWorld [EXPECTED_HEADERS; Sample.ann_row] [] [] [false; true] in
  first_row_filled (sheet w) /\
  sheet (exec get_all_resumes w) = sheet w /\
  sheet (exec (get_resume "0f_cv.pdf") w) = sheet w.
Proof.
  intros w.
  assert (Hf : first_row_filled (sheet w)) by (cbv; discriminate).
  split; [exact Hf|].
  exact (proj2 (proj2 (X14_reads_write_header_only "0f_cv.pdf" w)) Hf).
Defined.

(** ** What every listing satisfies *)

Lemma split_from_not_nil (sep s : string) (k : nat) :
  PyStr.split_from sep s k <> [].
Proof.
  revert k. induction s as [|c s IH]; intros k; simpl; [discriminate|].
  destruct k as [|k]; [|apply IH].
  destruct (PyStr.startswith sep (String c s)); [discriminate|].
  destruct (PyStr.split_from sep s 0); discriminate.
Qed.

Lemma keys_set_old {V} (k : string) (v : V) (d : dict V) :
  In (VText k) (keys d) -> keys (set k v d) = keys d.
Proof.
  induction d as [|[k' v'] d IH]; cbn [set keys map fst In]; intros Hin;
    [contradiction|].
  destruct (py_eq k k') eqn:E; [reflexivity|].
  cbn [map fst]. f_equal. apply IH.
  destruct Hin as [H|H]; [|exact H].
  subst k'. now rewrite py_eq_text_refl in E.
Qed.

Lemma NoDup_keys_set {V} (k : string) (v : V) (d : dict V) :
  NoDup (keys d) -> NoDup (keys (set k v d)).
Proof.
  intros Hnd. destruct (mem k d) eqn:Hm.
  - apply mem_keys in Hm. now rewrite keys_set_old.
  - assert (Hout : ~ In (VText k) (keys d)).
    { intros Hin. apply mem_keys in Hin. congruence. }
    rewrite keys_set_new by exact Hout.
    apply NoDup_app; [exact Hnd | repeat constructor; intros [] |].
    intros x Hx [<-|[]]. contradiction.
Qed.

Lemma Forall_set {V} (P : value * V -> Prop) (k : string) (v : V)
      (d : dict V) :
  P (VText k, v) -> Forall P d -> Forall P (set k v d).
Proof.
  intros Hkv. induction d as [|[k' v'] d IH]; cbn [set]; intros Hall.
  - now constructor.
  - inversion Hall as [|? ? Hh Ht]; subst.
    destruct (py_eq k k') eqn:E.
    + apply py_eq_text_eq in E. subst. now constructor.
    + constructor; [exact Hh | now apply IH].
Qed.

(** Entries as a refresh stores them for plain rows: under the id of the
    resume, which is not empty, with at least one skill entry. *)
Lemma loaded_entries (rows : list row) (c : dict resume) :
  let good (kv : value * resume) :=
    r_id (snd kv) = fst kv /\ py_truthy (fst kv) = true /\
    r_skills (snd kv) <> [] in
  NoDup (keys c) -> Forall good c ->
  NoDup (keys (fold_left keep_row rows c)) /\
  Forall good (fold_left keep_row rows c).
Proof.
  cbv zeta. revert c.
  induction rows as [|r rows IH]; intros c Hnd Hall.
  - now split.
  - cbn [fold_left]. apply IH; unfold keep_row;
      destruct (PyStr.truthy (cell 0 r)) eqn:Et; trivial.
    + now apply NoDup_keys_set.
    + apply Forall_set; [|exact Hall].
      cbn [fst snd resume_of_row r_id r_skills py_truthy].
      repeat split; [exact Et | apply split_from_not_nil].
Qed.

Lemma ids_of_values (d : dict resume) :
  Forall (fun kv => r_id (snd kv) = fst kv) d ->
  map r_id (values d) = keys d.
Proof.
  unfold values, keys. induction d as [|[k v] d IH]; intros Hall; [reflexivity|].
  inversion Hall as [|? ? Hh Ht]; subst. cbn in *. now rewrite Hh, IH.
Qed.

(** X8.  With the header above plain rows and no remote failure, a
    listing never returns two resumes with the same id, never returns a
    resume with an empty id, and never returns a resume with an empty
    list of skills (a row without skills gives the list holding one
    empty string), also when several rows carry the same id. *)
Theorem X8_listing_well_formed (rows : list row) c u :
  Forall plain rows ->
  let l := listed (mkWorld (EXPECTED_HEADERS :: rows) c u []) in
  NoDup (map r_id l) /\
  Forall (fun r => py_truthy (r_id r) = true /\ r_skills r <> []) l.
Proof.
  intros Hplain. cbv zeta. rewrite (listed_header rows c u Hplain).
  destruct (loaded_entries rows []) as (Hnd & Hall);
    [constructor | constructor |].
  split.
  - rewrite ids_of_values; [exact Hnd|].
    eapply Forall_impl; [|exact Hall]. now intros kv (H & _).
  - unfold values. apply Forall_map.
    eapply Forall_impl; [|exact Hall]. intros [k v] (H1 & H2 & H3).
    cbn in *. now rewrite H1.
Qed.

Lemma X8_listing_well_formed_witness :
  let twin := ["0f_cv.pdf"; "cv.pdf"; "Ann B."; "annb@example.org"; "5550111";
               ""; ""; ""] in
  let rows := [Sample.ann_row; repeat EmptyString 8; twin; Sample.bob_row] in
  let l := listed (mkWorld (EXPECTED_HEADERS :: rows) [] [] []) in
  Forall plain rows /\
  map r_id l = [VText "0f_cv.pdf"; VText "1a_bob.docx"] /\
  NoDup (map r_id l) /\
  Forall (fun r => py_truthy (r_id r) = true /\ r_skills r <> []) l.
Proof.
  intros twin rows l.
  assert (Hplain : Forall plain rows).
  { repeat (constructor; [split; [cbn; lia | split; reflexivity]|]).
    constructor. }
  split; [exact Hplain|]. split; [reflexivity|].
  exact (X8_listing_well_formed rows [] [] Hplain).
Defined.

(** ** Lookup and listing *)

Lemma py_eq_text_sym (s : string) (v : value) :
  py_eq (VText s) v = py_eq v (VText s).
Proof. destruct v; cbn [py_eq]; [apply String.eqb_sym | reflexivity]. Qed.

Lemma well_keyed_set (k : value) (v : resume) (d : dict resume) :
  r_id v = k -> well_keyed d -> well_keyed (set k v d).
Proof.
  unfold well_keyed. intros Hid.
  induction d as [|[k' v'] d IH]; cbn [set]; intros Hall.
  - constructor; [now left | constructor].
  - inversion Hall as [|? ? Hh Ht]; subst.
    destruct (py_eq (r_id v) k') eqn:E.
    + constructor; [now right | exact Ht].
    + constructor; [exact Hh | now apply IH].
Qed.

Lemma well_keyed_del (k : value) (d : dict resume) :
  well_keyed d -> well_keyed (del k d).
Proof.
  unfold well_keyed. induction d as [|[k' v'] d IH]; cbn [del]; intros Hall;
    [constructor|].
  inversion Hall as [|? ? Hh Ht]; subst.
  destruct (py_eq k k'); [exact Ht | constructor; [exact Hh | now apply IH]].
Qed.

Lemma resume_of_record_id (resume_id : value) (record : dict value)
      (entry : resume) :
  resume_of_record resume_id record = Return entry -> r_id entry = resume_id.
Proof.
  unfold resume_of_record.
  destruct (get_default "Skills" (VText "") record); [|discriminate].
  now intros [= <-].
Qed.

Lemma well_keyed_load (records : list (dict value)) (c : dict resume) :
  well_keyed c -> well_keyed (snd (load records c)).
Proof.
  revert c. induction records as [|record records IH]; intros c Hc;
    [exact Hc|].
  cbn [load]. destruct (keep_record c record) as [c'|e] eqn:E; [|exact Hc].
  apply IH. unfold keep_record in E. cbv zeta in E.
  destruct (py_truthy _); [|now injection E as <-].
  destruct (resume_of_record _ record) as [entry|e] eqn:Er; [|discriminate].
  injection E as <-. apply well_keyed_set; [|exact Hc].
  exact (resume_of_record_id _ _ _ Er).
Qed.

(** The cache stays well keyed through a refresh, whatever the faults. *)
Lemma well_keyed_fetch (w : world) :
  well_keyed (resumes w) ->
  well_keyed (resumes (exec fetch_resumes_from_sheets w)).
Proof.
  intros Hk. destruct (fetch_any w) as (_ & _ & [H|H]); rewrite H;
    [exact Hk | apply well_keyed_load; constructor].
Qed.

Lemma get_find_values (k : string) (d : dict resume) :
  well_keyed d ->
  get k d = find (fun r => py_eq (r_id r) k) (values d).
Proof.
  unfold well_keyed, values.
  induction d as [|[k' v] d IH]; intros Hall; [reflexivity|].
  inversion Hall as [|? ? Hh Ht]; subst. cbn [get map snd find fst] in *.
  assert (E : py_eq k k' = py_eq (r_id v) k).
  { rewrite <- py_eq_text_sym. destruct Hh as [->|Hh]; [reflexivity|].
    symmetry. now apply py_eq_text_trans. }
  rewrite E. destruct (py_eq (r_id v) k); [reflexivity | now apply IH].
Qed.

(** X9.  Whatever the table holds and whatever the remote failures, a
    lookup agrees with a listing made in the same state, the cache being
    well keyed as the program leaves it: the lookup answers 200 with the
    first listed resume whose id equals the id asked for when there is
    one, and 404 when no listed resume has the id. *)
Theorem X9_lookup_agrees_with_listing (resume_id : string) (w : world) :
  well_keyed (resumes w) ->
  result (get_resume resume_id) w =
  Return match find (fun r => py_eq (r_id r) resume_id) (listed w) with
         | Some r => (JResume r, 200)
         | None => (JError "Resume not found", 404)
         end.
Proof.
  intros Hk. unfold listed, result.
  rewrite get_all_resumes_any, get_resume_any. cbn [fst].
  rewrite get_find_values; [reflexivity|].
  now apply well_keyed_fetch.
Qed.

Lemma X9_lookup_agrees_with_listing_witness :
  let w := mkWorld [EXPECTED_HEADERS; Sample.ann_row; Sample.bob_row]
                   [] [] [] in
  well_keyed (resumes w) /\
  result (get_resume "1a_bob.docx") w =
  Return (JResume (mkResume "1a_bob.docx" "bob.docx" "Bob" "bob@example.org"
                            "555-0199" "" "github.com/bob" ["Go"]), 200) /\
  result (get_resume "1a_bob.docx") w =
  Return match find (fun r => py_eq (r_id r) "1a_bob.docx") (listed w) with
         | Some r => (JResume r, 200)
         | None => (JError "Resume not found", 404)
         end.
Proof.
  intros w.
  assert (Hk : well_keyed (resumes w)) by constructor.
  split; [exact Hk|]. split; [reflexivity|].
  exact (X9_lookup_agrees_with_listing "1a_bob.docx" w Hk).
Defined.

(** ** The cache stays well keyed *)

Lemma well_keyed_upload sf et ed hex files w :
  well_keyed (resumes w) ->
  well_keyed (resumes (exec (upload_resume sf et ed hex files) w)).
Proof.
  intros Hk. unfold exec.
  destruct (upload_outcomes sf et ed hex files w)
    as [(msg & -> & _)
       | [(file & msg & code & fs & _ & _ & _ & _ & ->)
         | (file & text & d & _ & _ & _ & _ & _ & _ & _ & _ & _ & ->)]];
    cbn [snd resumes]; try exact Hk.
  match goal with |- context [exec (append_to_google_sheet ?r) ?w1] =>
    destruct (append_sheet_any r w1) as (Hc & _)
  end.
  cbv zeta in Hc. rewrite Hc. cbn [resumes].
  apply well_keyed_set; [reflexivity | exact Hk].
Qed.

Lemma remote_keeps_cache {A} (op : list row -> A * list row) (w : world) :
  resumes (exec (Sheet.remote op) w) = resumes w.
Proof.
  unfold exec.
  destruct (remote_cases op w) as [(f & _ & ->) | (_ & ->)]; reflexivity.
Qed.

Lemma well_keyed_delete (resume_id : string) (w : world) :
  well_keyed (resumes w) ->
  well_keyed (resumes (exec (delete_resume resume_id) w)).
Proof.
  intros Hk. apply well_keyed_fetch in Hk. unfold exec.
  destruct (mem resume_id (resumes (exec fetch_resumes_from_sheets w)))
    eqn:Hm.
  - rewrite (delete_found resume_id w Hm).
    apply (well_keyed_del resume_id) in Hk.
    set (w2 := mkWorld _ (del _ _) _ _).
    change (well_keyed (resumes w2)) in Hk.
    unfold try_except, bind at 1, Sheet.get_all_values.
    pose proof (remote_keeps_cache
                  (fun s => (Sheet.fill_gaps s, s)) w2) as H1.
    unfold exec in H1.
    destruct (Sheet.remote _ w2) as [[data|e] w3]; cbn [fst snd] in *;
      [|cbn; now rewrite H1].
    unfold bind at 1. rewrite delete_first_find.
    destruct (find_row resume_id data) as [i|]; [|cbn; now rewrite H1].
    unfold Sheet.delete_rows.
    match goal with |- context [Sheet.remote ?op w3] =>
      pose proof (remote_keeps_cache op w3) as H2;
      unfold exec in H2; destruct (Sheet.remote op w3) as [[[]|e] w4]
    end; cbn [fst snd] in *; cbn; now rewrite H2, H1.
  - now rewrite (delete_missing resume_id w Hm).
Qed.

(** ** Rows that share an id *)

Lemma truthy_neq (a b : string) :
  PyStr.truthy a = true -> PyStr.truthy b = false -> a <> b.
Proof. intros Ha Hb ->. congruence. Qed.

Lemma py_eq_text_neq (a b : string) :
  a <> b -> py_eq (VText a) (VText b) = false.
Proof. intros H. cbn [py_eq]. now apply String.eqb_neq. Qed.

Lemma get_keep_row (resume_id : string) (c : dict resume) (r : row) :
  PyStr.truthy resume_id = true ->
  get resume_id (keep_row c r) =
  if String.eqb (cell 0 r) resume_id then Some (resume_of_row r)
  else get resume_id c.
Proof.
  intros Ht. unfold keep_row.
  destruct (String.eqb (cell 0 r) resume_id) eqn:E.
  - apply String.eqb_eq in E. rewrite E, Ht. apply get_set_same.
  - apply String.eqb_neq in E.
    destruct (PyStr.truthy (cell 0 r)); [|reflexivity].
    apply get_set_other. apply py_eq_text_neq. congruence.
Qed.

Lemma find_app_first {A} (p : A -> bool) (a b : list A) :
  find p (a ++ b) =
  match find p a with Some x => Some x | None => find p b end.
Proof.
  induction a as [|x a IH]; simpl; [reflexivity|].
  now destruct (p x).
Qed.

Lemma get_loaded_last (resume_id : string) (rows : list row) (c : dict resume) :
  PyStr.truthy resume_id = true ->
  get resume_id (fold_left keep_row rows c) =
  match find (fun r => String.eqb (cell 0 r) resume_id) (rev rows) with
  | Some r => Some (resume_of_row r)
  | None => get resume_id c
  end.
Proof.
  intros Ht. revert c. induction rows as [|r rows IH]; intros c.
  - reflexivity.
  - cbn [fold_left rev]. rewrite IH, find_app_first.
    destruct (find _ (rev rows)); [reflexivity|].
    cbn [find]. rewrite (get_keep_row resume_id c r Ht).
    now destruct (String.eqb (cell 0 r) resume_id).
Qed.

Lemma get_loaded_empty (resume_id : string) (rows : list row)
      (c : dict resume) :
  PyStr.truthy resume_id = false ->
  get resume_id (fold_left keep_row rows c) = get resume_id c.
Proof.
  intros Hf. revert c. induction rows as [|r rows IH]; intros c.
  - reflexivity.
  - cbn [fold_left]. rewrite IH. unfold keep_row.
    destruct (PyStr.truthy (cell 0 r)) eqn:Et; [|reflexivity].
    apply get_set_other. apply py_eq_text_neq.
    apply not_eq_sym. now apply truthy_neq.
Qed.

(** X10.  With the header above plain rows and no remote failure, a
    lookup of a non-empty id answers with the last row of the table that
    carries the id: when several rows share an id, the lowest one is the
    one seen.  It answers 404 when no row carries the id, and always for
    the empty id, even when rows have an empty ID cell. *)
Theorem X10_last_row_wins (resume_id : string) (rows : list row) c u :
  Forall plain rows ->
  result (get_resume resume_id) (mkWorld (EXPECTED_HEADERS :: rows) c u []) =
  Return
    match (if PyStr.truthy resume_id
           then find (fun r => String.eqb (cell 0 r) resume_id) (rev rows)
           else None) with
    | Some r => (JResume (resume_of_row r), 200)
    | None => (JError "Resume not found", 404)
    end.
Proof.
  intros Hplain. unfold result.
  rewrite get_resume_any, (fetch_header rows c u Hplain). cbn [fst resumes].
  destruct (PyStr.truthy resume_id) eqn:Ht.
  - rewrite (get_loaded_last resume_id rows [] Ht).
    now destruct (find _ (rev rows)).
  - now rewrite (get_loaded_empty resume_id rows [] Ht).
Qed.

Lemma X10_last_row_wins_witness :
  let twin := ["0f_cv.pdf"; "cv.pdf"; "Ann B."; "annb@example.org"; "5550111";
               ""; ""; "Ada"] in
  let rows := [Sample.ann_row; Sample.bob_row; twin] in
  Forall plain rows /\
  result (get_resume "0f_cv.pdf")
         (mkWorld (EXPECTED_HEADERS :: rows) [] [] []) =
  Return (JResume (mkResume "0f_cv.pdf" "cv.pdf" "Ann B." "annb@example.org"
                            (VNum "5550111") "" "" ["Ada"]), 200).
Proof.
  intros twin rows.
  assert (Hplain : Forall plain rows).
  { repeat (constructor; [split; [cbn; lia | split; reflexivity]|]).
    constructor. }
  split; [exact Hplain|].
  exact (X10_last_row_wins "0f_cv.pdf" rows [] [] Hplain).
Defined.

(** ** Deleting, without assuming ids are unique *)

Lemma mem_loaded_any (resume_id : string) (rows : list row) :
  In resume_id (column 0 rows) ->
  mem resume_id (fold_left keep_row rows []) = true.
Proof.
  intros Hin. unfold column in Hin. apply filter_In in Hin.
  destruct Hin as (Hin & Ht). apply in_map_iff in Hin.
  destruct Hin as (r & Hr & Hin).
  unfold mem. rewrite (get_loaded_last resume_id rows [] Ht).
  destruct (find _ (rev rows)) eqn:Ef; [reflexivity|].
  apply in_rev in Hin. pose proof (find_none _ _ Ef r Hin) as Hno.
  cbv beta in Hno. apply String.eqb_neq in Hno. contradiction.
Qed.

Lemma drop_row_split (resume_id : string) (rows : list row) :
  In resume_id (map (cell 0) rows) ->
  exists a r b,
    rows = a ++ r :: b /\ cell 0 r = resume_id /\
    (forall x, In x a -> cell 0 x <> resume_id) /\
    drop_row resume_id rows = a ++ b.
Proof.
  induction rows as [|r rows IH]; [intros []|].
  intros Hin. cbn [drop_row].
  destruct (String.eqb (cell 0 r) resume_id) eqn:E.
  - apply String.eqb_eq in E. exists [], r, rows.
    repeat split; [exact E | intros x []].
  - apply String.eqb_neq in E. destruct Hin as [Hin|Hin]; [contradiction|].
    destruct (IH Hin) as (a & r' & b & -> & Hr & Ha & Hd).
    exists (r :: a), r', b. repeat split; [exact Hr | | now rewrite Hd].
    intros x [<-|Hx]; [exact E | now apply Ha].
Qed.

(** X11.  With the header above plain rows and no remote failure,
    deleting an id that some row carries (other than the header's own
    label) answers 200 and removes exactly one row: the first row from
    the top whose ID cell is the id.  The rows above and below it, also
    later rows with the same id, stay in place and in order. *)
Theorem X11_delete_first_row_only (resume_id : string) (rows : list row) c u :
  Forall plain rows ->
  In resume_id (column 0 rows) ->
  resume_id <> "ID" ->
  let w := mkWorld (EXPECTED_HEADERS :: rows) c u [] in
  result (delete_resume resume_id) w =
    Return (JMessage "Resume deleted successfully", 200) /\
  exists a r b,
    rows = a ++ r :: b /\ cell 0 r = resume_id /\
    (forall x, In x a -> cell 0 x <> resume_id) /\
    sheet (exec (delete_resume resume_id) w) = EXPECTED_HEADERS :: a ++ b.
Proof.
  intros Hplain Hin Hne w. subst w. unfold result, exec.
  rewrite (delete_ok resume_id rows c u Hplain Hne (mem_loaded_any _ _ Hin)).
  cbn [fst snd sheet]. split; [reflexivity|].
  assert (Hcell : In resume_id (map (cell 0) rows)).
  { unfold column in Hin. now apply filter_In in Hin. }
  destruct (drop_row_split resume_id rows Hcell) as (a & r & b & H1 & H2 & H3 & H4).
  exists a, r, b. now rewrite H4.
Qed.

Lemma X11_delete_first_row_only_witness :
  let twin := ["0f_cv.pdf"; "cv.pdf"; "Ann B."; "annb@example.org"; "555-0111";
               ""; ""; "Ada"] in
  let rows := [Sample.bob_row; Sample.ann_row; twin] in
  let w := mkWorld (EXPECTED_HEADERS :: rows) [] [] [] in
  Forall plain rows /\
  In "0f_cv.pdf" (column 0 rows) /\
  "0f_cv.pdf" <> "ID" /\
  result (delete_resume "0f_cv.pdf") w =
    Return (JMessage "Resume deleted successfully", 200) /\
  exists a r b,
    rows = a ++ r :: b /\ cell 0 r = "0f_cv.pdf" /\
    (forall x, In x a -> cell 0 x <> "0f_cv.pdf") /\
    sheet (exec (delete_resume "0f_cv.pdf") w) = EXPECTED_HEADERS :: a ++ b.
Proof.
  intros twin rows w.
  assert (Hplain : Forall plain rows).
  { repeat (constructor; [split; [cbn; lia | split; reflexivity]|]).
    constructor. }
  assert (Hin : In "0f_cv.pdf" (column 0 rows)) by (right; left; reflexivity).
  assert (Hne : "0f_cv.pdf" <> "ID") by discriminate.
  split; [exact Hplain|]. split; [exact Hin|]. split; [exact Hne|].
  exact (X11_delete_first_row_only "0f_cv.pdf" rows [] [] Hplain Hin Hne).
Defined.

(** X12.  The scan of a delete starts at the header row.  With the
    header above plain rows and no remote failure, when some row has the
    header's label ID as its id, deleting that id answers 200 and
    removes the header row: every row, the one with that id included,
    stays in the table, which now starts with a row of data. *)
Theorem X12_delete_header_label (rows : list row) c u :
  Forall plain rows ->
  In "ID" (column 0 rows) ->
  let w := mkWorld (EXPECTED_HEADERS :: rows) c u [] in
  result (delete_resume "ID") w =
    Return (JMessage "Resume deleted successfully", 200) /\
  sheet (exec (delete_resume "ID") w) = rows.
Proof.
  intros Hplain Hin w. subst w. unfold result, exec.
  rewrite delete_found; rewrite (fetch_header rows c u Hplain);
    [|exact (mem_loaded_any _ _ Hin)].
  cbn [sheet resumes uploads faults].
  unfold try_except, bind at 1, Sheet.get_all_values. rewrite remote_ok.
  cbn [fst snd]. unfold bind at 1. rewrite delete_first_find.
  unfold Sheet.fill_gaps. cbn [map find_row].
  pose proof (width_header rows) as Hw.
  rewrite (row_has_id_pad "ID" _ EXPECTED_HEADERS) by lia.
  change (String.eqb (cell 0 EXPECTED_HEADERS) "ID") with true. cbv iota.
  unfold Sheet.delete_rows. rewrite remote_ok. cbn. now split.
Qed.

Lemma X12_delete_header_label_witness :
  let odd := ["ID"; "id.pdf"; "Ida"; "ida@example.org"; "555-0133"; ""; "";
              "SQL"] in
  let rows := [Sample.ann_row; odd] in
  let w := mkWorld (EXPECTED_HEADERS :: rows) [] [] [] in
  Forall plain rows /\
  In "ID" (column 0 rows) /\
  result (delete_resume "ID") w =
    Return (JMessage "Resume deleted successfully", 200) /\
  sheet (exec (delete_resume "ID") w) = rows.
Proof.
  intros odd rows w.
  assert (Hplain : Forall plain rows).
  { repeat (constructor; [split; [cbn; lia | split; reflexivity]|]).
    constructor. }
  assert (Hin : In "ID" (column 0 rows)) by (right; left; reflexivity).
  split; [exact Hplain|]. split; [exact Hin|].
  exact (X12_delete_header_label rows [] [] Hplain Hin).
Defined.

(** ** An upload undone by a delete *)






(** ** When the extraction error is given *)

(** X16.  For a file whose name passed the checks and whose text was
    extracted without exception, the answer is the extraction error
    exactly when that text holds nothing but white space (the empty text
    included); any other text leads to another answer. *)
Theorem X16_extraction_error_iff_blank sf et ed hex file text w :
  up_filename file <> EmptyString ->
  allowed_file (up_filename file) = true ->
  et (up_content file) = Return text ->
  result (upload_resume sf et ed hex (Some file)) w =
    Return (JError "Could not extract text from file", 500)
  <-> PyStr.all_space text = true.
Proof.
  intros Hname Hallowed Htext. split.
  - intros Hres. destruct (PyStr.all_space text) eqn:Esp; [reflexivity|].
    exfalso.
    assert (Hstrip : PyStr.strip text <> EmptyString).
    { intros Hs. apply strip_empty_all_space in Hs. congruence. }
    unfold result in Hres.
    destruct (ed text) as [d|e] eqn:Ed.
    + rewrite (upload_accepted sf et ed hex file text d w
                 Hname Hallowed Htext Hstrip Ed) in Hres.
      destruct (hd false (faults w) || negb (Sheet.header_ok (sheet w)));
        [discriminate|].
      destruct (phone_taken _ _); discriminate.
    + unfold upload_resume in Hres.
      apply String.eqb_neq in Hname. rewrite Hname, Hallowed in Hres.
      cbn [negb] in Hres.
      unfold try_except, bind, save, lift in Hres. rewrite Htext in Hres.
      destruct (PyStr.strip text); [congruence|].
      cbn [PyStr.truthy negb] in Hres. rewrite Ed in Hres. discriminate.
  - intros Hsp. unfold result.
    now rewrite (upload_blank_text sf et ed hex file text w
                   Hname Hallowed Htext (strip_all_space text Hsp)).
Qed.

Lemma X16_extraction_error_iff_blank_witness :
  let file := mkUpload "cv.pdf" "Ann 555-0100" in
  let w := mkWorld Sample.header_only [] [] [] in
  up_filename file <> EmptyString /\
  allowed_file (up_filename file) = true /\
  Sample.extract_text_from_pdf (up_content file) = Return (up_content file) /\
  (result (Sample.post Sample.ann "0f" file) w =
     Return (JError "Could not extract text from file", 500)
   <-> PyStr.all_space (up_content file) = true).
Proof.
  intros file w.
  assert (Hn : up_filename file <> EmptyString) by discriminate.
  assert (Ha : allowed_file (up_filename file) = true) by reflexivity.
  assert (Ht : Sample.extract_text_from_pdf (up_content file)
               = Return (up_content file)) by reflexivity.
  split; [exact Hn|]. split; [exact Ha|]. split; [exact Ht|].
  exact (X16_extraction_error_iff_blank
           Sample.secure_filename Sample.extract_text_from_pdf
           (Sample.extract_details Sample.ann) "0f" file (up_content file) w
           Hn Ha Ht).
Defined.
